(** * Mods Excel report: a shallow embedding of [minecraft_mods_report_to_excel.py]

    The program reads an ATLauncher [instance.json], turns every mod entry
    into a row dictionary ([build_rows]) and lays the rows out in a worksheet
    ([write_excel]).  The embedding follows the Python text function by
    function:

    - JSON documents are an inductive type with Python's truthiness, so that
      [x.get(k) or d] reads as in the source;
    - an operation that Python rejects on the value at hand returns
      [Raise e]; the only handler of the program ([except ValueError] in
      [iso_to_datetime]) is the only place where a failure becomes a value;
    - the worksheet is the store of cells, row heights, column widths and
      tables the program asks openpyxl to record;
    - what the interpreter and the operating system decide (the ISO parser,
      the local time zone, [str.lower], the iteration order of a [set] under
      a hash seed, path functions, the JSON parser) is the interface
      [Platform]. *)

From Stdlib Require Import ZArith Ascii String List.
From Stdlib.Floats Require Import SpecFloat.
From stdpp Require Import gmap strings list fin_maps sorting pretty.

Set Warnings "-register-all,-clear-no-such-hyp".

(** ** Python values read from JSON *)

Module Py.

(** What [json.load] builds: [None], [bool], [int], [float], [str], [list]
    and [dict].  An object keeps its members as the document lists them. *)
Inductive json : Type :=
| JNull
| JBool (b : bool)
| JInt (n : Z)
| JFloat (f : spec_float)
| JStr (s : string)
| JArr (items : list json)
| JObj (members : list (string * json)).

(** Python's truth test ([if v], [v or d], [not v]). *)
Definition truthy (v : json) : bool :=
  match v with
  | JNull => false
  | JBool b => b
  | JInt n => negb (n =? 0)%Z
  | JFloat (S754_zero _) => false
  | JFloat _ => true
  | JStr s => negb (String.eqb s "")
  | JArr items => match items with [] => false | _ => true end
  | JObj members => match members with [] => false | _ => true end
  end.

(** [a or b] on already evaluated operands. *)
Definition py_or (a b : json) : json := if truthy a then a else b.

(** The dictionary built from the members of an object: a repeated key keeps
    its last value and the place of its first occurrence. *)
Fixpoint dict_get (key : string) (members : list (string * json)) : option json :=
  match members with
  | [] => None
  | (k, v) :: rest =>
      match dict_get key rest with
      | Some later => Some later
      | None => if String.eqb k key then Some v else None
      end
  end.

Fixpoint dict_keys (members : list (string * json)) : list string :=
  match members with
  | [] => []
  | (k, _) :: rest => k :: filter (λ k', k' ≠ k) (dict_keys rest)
  end.

(** Exceptions the program can meet. *)
Inductive exn : Type :=
| AttributeError
| TypeError
| JSONDecodeError
| UnicodeDecodeError
| OSError.

Inductive result (A : Type) : Type :=
| Ok (a : A)
| Raise (e : exn).
Arguments Ok {A} a.
Arguments Raise {A} e.

#[global] Instance result_ret : MRet result := λ A a, Ok a.
#[global] Instance result_bind : MBind result := λ A B f m,
  match m with
  | Ok a => f a
  | Raise e => Raise e
  end.

Definition is_ok {A} (r : result A) : bool :=
  match r with Ok _ => true | Raise _ => false end.

(** [obj.get(key)]: only a [dict] has the method. *)
Definition py_get (obj : json) (key : string) : result json :=
  match obj with
  | JObj members => Ok (default JNull (dict_get key members))
  | _ => Raise AttributeError
  end.

(** [obj.get(key, dflt)]: the default replaces a missing key only. *)
Definition py_get_default (obj : json) (key : string) (dflt : json) : result json :=
  match obj with
  | JObj members => Ok (default dflt (dict_get key members))
  | _ => Raise AttributeError
  end.

(** The characters of a string, each as a string of length one. *)
Fixpoint chars (s : string) : list string :=
  match s with
  | EmptyString => []
  | String c rest => String c EmptyString :: chars rest
  end.

(** [for x in v] / [[x for x in v]]: lists give their items, strings their
    characters, dictionaries their keys; nothing else is iterable. *)
Definition py_iter (v : json) : result (list json) :=
  match v with
  | JArr items => Ok items
  | JStr s => Ok (JStr <$> chars s)
  | JObj members => Ok (JStr <$> dict_keys members)
  | _ => Raise TypeError
  end.

(** [sep.join(items)]: every item has to be a [str]. *)
Fixpoint py_join_items (items : list json) : result (list string) :=
  match items with
  | [] => Ok []
  | JStr s :: rest => ss ← py_join_items rest; Ok (s :: ss)
  | _ :: _ => Raise TypeError
  end.

Definition py_join (sep : string) (items : list json) : result string :=
  ss ← py_join_items items; Ok (String.concat sep ss).

(** [s.endswith(suffix)] and [s[:-1]]. *)
Definition endswith (s suffix : string) : bool :=
  let n := String.length s in
  let m := String.length suffix in
  (m <=? n)%nat && String.eqb (substring (n - m) m s) suffix.

Definition drop_last (s : string) : string :=
  substring 0 (String.length s - 1) s.

End Py.
Export Py.

(** ** [datetime] values *)

Module Datetime.

(** A [datetime] is its wall-clock reading, counted in microseconds from
    0001-01-01T00:00:00, and its [tzinfo]: [None] (naive) or a fixed offset
    from UTC in microseconds.  The calendar range of the C type is not part
    of the model. *)
Record datetime : Type := mk_datetime {
  wall : Z;
  tzinfo : option Z
}.

#[global] Instance datetime_eq_dec : EqDecision datetime.
Proof. solve_decision. Defined.

(** [d.replace(tzinfo=None)] *)
Definition replace_tzinfo_none (d : datetime) : datetime :=
  {| wall := wall d; tzinfo := None |}.

(** The instant of an aware value, as a UTC wall-clock reading. *)
Definition utc_instant (d : datetime) : Z :=
  (wall d - default 0 (tzinfo d))%Z.

(** [d.astimezone()] for an aware [d]: the same instant read in the local
    zone, whose offset at a UTC instant is [local_utcoffset]. *)
Definition astimezone (local_utcoffset : Z → Z) (d : datetime) : datetime :=
  let off := local_utcoffset (utc_instant d) in
  {| wall := utc_instant d + off; tzinfo := Some off |}.

End Datetime.
Export Datetime.

(** ** What the interpreter and the operating system provide *)

(** - [fromisoformat s] is [datetime.fromisoformat(s)], [None] standing for
      its [ValueError];
    - [local_utcoffset u] is the offset of the local zone at the UTC instant
      [u];
    - [str_lower] is [str.lower];
    - [repr_other v] is [str(v)] for a float, a list or a dictionary;
    - [set_order seed s] is the order in which a [set] holding the strings
      [s] is iterated in a process started with hash seed [seed]: some
      enumeration of [s] without repetition;
    - [abspath], [dirname], [path_join] are the [os.path] functions;
    - [json_loads text] is the JSON parser, [None] standing for its
      decoding error. *)
Class Platform : Type := {
  fromisoformat : string → option datetime;
  local_utcoffset : Z → Z;
  str_lower : string → string;
  repr_other : json → string;
  set_order : N → gset string → list string;
  set_order_perm : ∀ seed s, set_order seed s ≡ₚ elements s;
  abspath : string → string;
  dirname : string → string;
  path_join : string → string → string;
  json_loads : string → option json
}.

(** ** The worksheet the program fills in *)

Module Sheet.

(** A value held by a row dictionary or a cell: something read from the
    JSON document, or a [datetime]. *)
Inductive pyval : Type :=
| PJson (v : json)
| PDatetime (d : datetime).

Definition pyval_truthy (v : pyval) : bool :=
  match v with
  | PJson j => truthy j
  | PDatetime _ => true
  end.

(** A row dictionary. *)
Abbreviation row := (gmap string pyval).

(** [isinstance(v, datetime)] *)
Definition is_datetime (v : pyval) : bool :=
  match v with
  | PDatetime _ => true
  | PJson _ => false
  end.

(** [Alignment(wrap_text=..., vertical=...)] *)
Record alignment : Type := Alignment {
  wrap_text : bool;
  vertical : string
}.

Record cell : Type := mk_cell {
  cell_value : pyval;
  cell_hyperlink : option pyval;
  cell_style : string;
  cell_number_format : string;
  cell_alignment : option alignment
}.

(** A cell as the worksheet creates it on first access. *)
Definition new_cell : cell :=
  {| cell_value := PJson JNull;
     cell_hyperlink := None;
     cell_style := "Normal";
     cell_number_format := "General";
     cell_alignment := None |}.

Definition set_value (v : pyval) (c : cell) : cell :=
  {| cell_value := v;
     cell_hyperlink := cell_hyperlink c;
     cell_style := cell_style c;
     cell_number_format := cell_number_format c;
     cell_alignment := cell_alignment c |}.

Definition set_hyperlink (target : pyval) (c : cell) : cell :=
  {| cell_value := cell_value c;
     cell_hyperlink := Some target;
     cell_style := cell_style c;
     cell_number_format := cell_number_format c;
     cell_alignment := cell_alignment c |}.

Definition set_style (name : string) (c : cell) : cell :=
  {| cell_value := cell_value c;
     cell_hyperlink := cell_hyperlink c;
     cell_style := name;
     cell_number_format := cell_number_format c;
     cell_alignment := cell_alignment c |}.

Definition set_number_format (fmt : string) (c : cell) : cell :=
  {| cell_value := cell_value c;
     cell_hyperlink := cell_hyperlink c;
     cell_style := cell_style c;
     cell_number_format := fmt;
     cell_alignment := cell_alignment c |}.

Definition set_alignment (a : alignment) (c : cell) : cell :=
  {| cell_value := cell_value c;
     cell_hyperlink := cell_hyperlink c;
     cell_style := cell_style c;
     cell_number_format := cell_number_format c;
     cell_alignment := Some a |}.

(** [TableStyleInfo(...)] and [Table(displayName=..., ref=...)] *)
Record table_style : Type := TableStyleInfo {
  style_name : string;
  showFirstColumn : bool;
  showLastColumn : bool;
  showRowStripes : bool;
  showColumnStripes : bool
}.

Record table : Type := Table {
  displayName : string;
  ref : string;
  tableStyleInfo : option table_style
}.

Record worksheet : Type := mk_worksheet {
  title : string;
  freeze_panes : option string;
  cells : gmap (nat * nat) cell;
  row_height : gmap nat Z;
  column_width : gmap string Z;
  tables : list table
}.

(** The active sheet of [Workbook()]. *)
Definition new_sheet : worksheet :=
  {| title := "Sheet";
     freeze_panes := None;
     cells := ∅;
     row_height := ∅;
     column_width := ∅;
     tables := [] |}.

Definition with_title (t : string) (ws : worksheet) : worksheet :=
  mk_worksheet t (freeze_panes ws) (cells ws) (row_height ws)
               (column_width ws) (tables ws).

Definition with_freeze_panes (p : string) (ws : worksheet) : worksheet :=
  mk_worksheet (title ws) (Some p) (cells ws) (row_height ws)
               (column_width ws) (tables ws).

Definition with_cells (cs : gmap (nat * nat) cell) (ws : worksheet) : worksheet :=
  mk_worksheet (title ws) (freeze_panes ws) cs (row_height ws)
               (column_width ws) (tables ws).

(** [ws.row_dimensions[r].height = h] *)
Definition set_row_height (r : nat) (h : Z) (ws : worksheet) : worksheet :=
  mk_worksheet (title ws) (freeze_panes ws) (cells ws)
               (<[r := h]> (row_height ws)) (column_width ws) (tables ws).

(** [ws.column_dimensions[letter].width = w] *)
Definition set_column_width (letter : string) (w : Z) (ws : worksheet) : worksheet :=
  mk_worksheet (title ws) (freeze_panes ws) (cells ws) (row_height ws)
               (<[letter := w]> (column_width ws)) (tables ws).

(** [ws.add_table(t)] *)
Definition add_table (t : table) (ws : worksheet) : worksheet :=
  mk_worksheet (title ws) (freeze_panes ws) (cells ws) (row_height ws)
               (column_width ws) (tables ws ++ [t]).

(** The cell at a position, created on first access. *)
Definition get_cell (r c : nat) (ws : worksheet) : cell :=
  default new_cell (cells ws !! (r, c)).

(** [ws.cell(row=r, column=c, value=v)]: the cell is created when it is not
    there yet, and a value other than [None] is stored in it. *)
Definition ws_cell (r c : nat) (v : pyval) (ws : worksheet) : worksheet :=
  let current := get_cell r c ws in
  let written :=
    match v with
    | PJson JNull => current
    | _ => set_value v current
    end in
  with_cells (<[(r, c) := written]> (cells ws)) ws.

(** An attribute assignment on the cell object returned by [ws.cell]. *)
Definition update_cell (r c : nat) (f : cell → cell) (ws : worksheet) : worksheet :=
  with_cells (<[(r, c) := f (get_cell r c ws)]> (cells ws)) ws.

(** [get_column_letter(idx)] for the indices openpyxl accepts with one or
    two letters (1 to 702): bijective base 26 over [A..Z]. *)
Definition letter_of (n : nat) : string :=
  String (ascii_of_nat (64 + n)) EmptyString.

Definition get_column_letter (idx : nat) : string :=
  let q := (idx - 1) / 26 in
  let r := S ((idx - 1) mod 26) in
  if (q =? 0)%nat then letter_of r else letter_of q +:+ letter_of r.

(** [enumerate(l, start=k)] *)
Fixpoint enumerate {A} (start : nat) (l : list A) : list (nat * A) :=
  match l with
  | [] => []
  | x :: rest => (start, x) :: enumerate (S start) rest
  end.

Record workbook : Type := Workbook { active : worksheet }.

End Sheet.
Export Sheet.

(** ** Files and the console *)

Module Os.

Inductive fsnode : Type :=
| TextFile (content : string)
| XlsxFile (wb : workbook)
| Directory.

(** What a run does to the outside, in order. *)
Inductive event : Type :=
| Printed (line : string)
| Opened (path : string)
| Saved (path : string).

Record world : Type := mk_world {
  fs : gmap string fsnode;
  events : list event
}.

(** [os.path.isfile(path)] *)
Definition isfile (path : string) (w : world) : bool :=
  match fs w !! path with
  | Some (TextFile _) | Some (XlsxFile _) => true
  | Some Directory | None => false
  end.

(** [print(line)] *)
Definition print (line : string) (w : world) : world :=
  {| fs := fs w; events := events w ++ [Printed line] |}.

(** How the process ends: [main] returned a status, or an exception reached
    the top level. *)
Inductive outcome : Type :=
| Returned (status : Z)
| Uncaught (e : exn).


End Os.
Export Os.

(** ** The program *)

Section Program.
Context {platform : Platform}.

Definition HEADERS : list string :=
  [ "Mod Name";
    "Description";
    "Detail";
    "Category";
    "Links";
    "File Name";
    "Updated At" ].

Definition CATEGORIES_COL_INDEX : nat := 11.
Definition DATA_ROW_HEIGHT : Z := 15.

(** [str(v)], as an f-string applies it to a field. *)
Definition py_str (v : json) : string :=
  match v with
  | JStr s => s
  | JNull => "None"
  | JBool true => "True"
  | JBool false => "False"
  | JInt n => pretty n
  | _ => repr_other v
  end.

(** [a or b], the right operand being evaluated only when needed. *)
Definition or_else (a b : result json) : result json :=
  v ← a; if truthy v then Ok v else b.

(** [load_instance(path)]: open the file and parse it. *)
Definition load_instance (path : string) (w : world) : result json * world :=
  let w' := {| fs := fs w; events := events w ++ [Opened path] |} in
  match fs w !! path with
  | Some (TextFile content) =>
      match json_loads content with
      | Some v => (Ok v, w')
      | None => (Raise JSONDecodeError, w')
      end
  | Some (XlsxFile _) => (Raise UnicodeDecodeError, w')
  | Some Directory | None => (Raise OSError, w)
  end.

(** [iso_to_datetime(value)].  [except ValueError] turns the failure of
    [fromisoformat] into [None]; a value without [endswith] is not its
    business. *)
Definition iso_to_datetime (value : json) : result (option datetime) :=
  if negb (truthy value) then Ok None
  else
    match value with
    | JStr value =>
        let normalized :=
          if endswith value "Z" then drop_last value +:+ "+00:00" else value in
        match fromisoformat normalized with
        | Some parsed =>
            let parsed :=
              match tzinfo parsed with
              | Some _ => replace_tzinfo_none (astimezone local_utcoffset parsed)
              | None => parsed
              end in
            Ok (Some parsed)
        | None => Ok None
        end
    | _ => Raise AttributeError
    end.

(** [updated_dt = iso_to_datetime(updated_raw)] and
    [updated_value = updated_dt if updated_dt else (updated_raw or "")]. *)
Definition updated_value (updated_raw : json) : result pyval :=
  updated_dt ← iso_to_datetime updated_raw;
  match updated_dt with
  | Some d => Ok (PDatetime d)
  | None => Ok (PJson (py_or updated_raw (JStr "")))
  end.

(** [modrinth_link(project)]: [None] or the URL. *)
Definition modrinth_link (project : json) : result json :=
  slug ← or_else (py_get project "slug") (py_get project "id");
  if negb (truthy slug) then Ok JNull
  else Ok (JStr ("https://modrinth.com/mod/" +:+ py_str slug)).

(** [mod_display_name(mod, project)] *)
Definition mod_display_name (mod_ project : json) : result json :=
  if truthy project then
    or_else (py_get project "title")
      (or_else (py_get mod_ "name")
         (or_else (py_get mod_ "file") (Ok (JStr ""))))
  else
    or_else (py_get mod_ "name")
      (or_else (py_get mod_ "file") (Ok (JStr ""))).

(** [for cat in category_list: if cat: categories.add(cat)].  The loop runs
    after [";".join] accepted the same items, so a tag is a string here; the
    set of the model holds strings only. *)
Fixpoint add_categories (category_list : list json) (categories : gset string)
  : result (gset string) :=
  match category_list with
  | [] => Ok categories
  | cat :: rest =>
      if truthy cat then
        match cat with
        | JStr tag => add_categories rest ({[tag]} ∪ categories)
        | _ => Raise TypeError
        end
      else add_categories rest categories
  end.

(** What the two branches of [if project:] leave in the local variables. *)
Record enrichment : Type := mk_enrichment {
  e_description : json;
  e_detail : json;
  e_category : string;
  e_categories : gset string;
  e_link_url : json;
  e_link_text : string;
  e_updated_raw : json
}.

Definition enrich (project : json) (categories : gset string) : result enrichment :=
  if truthy project then
    description ← or_else (py_get project "description") (Ok (JStr ""));
    detail ← or_else (py_get project "body") (Ok (JStr ""));
    category_list ← or_else (py_get project "categories") (Ok (JArr []));
    items ← py_iter category_list;
    category ← py_join ";" (filter (λ c, truthy c = true) items);
    categories ← add_categories items categories;
    link_url ← modrinth_link project;
    let link_text := if truthy link_url then "Modrinth" else "" in
    updated_raw ← py_get project "updated";
    Ok (mk_enrichment description detail category categories
                      link_url link_text updated_raw)
  else
    Ok (mk_enrichment
          (JStr "No Modrinth source available (untrusted source)")
          (JStr "") "" categories JNull "No Modrinth" JNull).

(** The body of [for mod in mods:]: the row appended to [rows] and the set
    [categories] after the iteration. *)
Definition build_row (mod_ : json) (categories : gset string)
  : result (row * gset string) :=
  project ← py_get mod_ "modrinthProject";
  e ← enrich project categories;
  updated ← updated_value (e_updated_raw e);
  name ← mod_display_name mod_ project;
  file ← or_else (py_get mod_ "file") (Ok (JStr ""));
  Ok (<["Mod Name" := PJson name]>
      (<["Description" := PJson (e_description e)]>
      (<["Detail" := PJson (e_detail e)]>
      (<["Category" := PJson (JStr (e_category e))]>
      (<["Links" := PJson (JStr (e_link_text e))]>
      (<["Links_url" := PJson (e_link_url e)]>
      (<["File Name" := PJson file]>
      (<["Updated At" := updated]> ∅))))))),
      e_categories e).

Fixpoint build_rows_loop (mods : list json) (rows : list row)
    (categories : gset string) : result (list row * gset string) :=
  match mods with
  | [] => Ok (rows, categories)
  | mod_ :: rest =>
      '(r, categories) ← build_row mod_ categories;
      build_rows_loop rest (rows ++ [r]) categories
  end.

(** [build_rows(mods, mods_dir)] *)
Definition build_rows (mods : json) (mods_dir : string)
  : result (list row * gset string) :=
  entries ← py_iter mods;
  build_rows_loop entries [] ∅.

(** [sorted(l, key=key)]: the stable sort, keys compared as strings. *)
Fixpoint insert_by_key (key : string → string) (x : string) (l : list string)
  : list string :=
  match l with
  | [] => [x]
  | y :: rest =>
      if String.leb (key x) (key y) then x :: y :: rest
      else y :: insert_by_key key x rest
  end.

Definition py_sorted (key : string → string) (l : list string) : list string :=
  foldr (insert_by_key key) [] l.

Definition wrap_columns : list string := ["Description"; "Detail"; "Category"].

(** The body of the inner loop over [enumerate(HEADERS, start=1)]. *)
Definition write_data_cell (row_idx : nat) (r : row) (ws : worksheet)
    (col : nat * string) : worksheet :=
  let '(col_idx, header) := col in
  let value := default (PJson (JStr "")) (r !! header) in
  let ws := ws_cell row_idx col_idx value ws in
  let ws :=
    if String.eqb header "Links"
       && pyval_truthy (default (PJson JNull) (r !! "Links_url"))
    then update_cell row_idx col_idx
           (λ c, set_style "Hyperlink"
                   (set_hyperlink (default (PJson JNull) (r !! "Links_url")) c)) ws
    else ws in
  let ws :=
    if String.eqb header "Updated At" && is_datetime value
    then update_cell row_idx col_idx (set_number_format "yyyy-mm-dd hh:mm:ss") ws
    else ws in
  if bool_decide (header ∈ wrap_columns)
  then update_cell row_idx col_idx (set_alignment (Alignment true "top")) ws
  else ws.

(** The body of the loop over [enumerate(rows, start=2)]. *)
Definition write_data_row (ws : worksheet) (indexed : nat * row) : worksheet :=
  let '(row_idx, r) := indexed in
  let ws := foldl (write_data_cell row_idx r) ws (enumerate 1 HEADERS) in
  set_row_height row_idx DATA_ROW_HEIGHT ws.

Definition ModsTable (nrows : nat) : table :=
  {| displayName := "ModsTable";
     ref := "A1:" +:+ get_column_letter (length HEADERS) +:+ pretty (1 + nrows);
     tableStyleInfo :=
       Some (TableStyleInfo "TableStyleMedium9" false false true false) |}.

(** The bodies of the loops over the header row, the column widths and
    the sorted categories. *)
Definition write_header_cell (ws : worksheet) (col : nat * string) : worksheet :=
  let '(col_idx, header) := col in
  ws_cell 1 col_idx (PJson (JStr header)) ws.

Definition write_width (ws : worksheet) (col : nat * Z) : worksheet :=
  let '(idx, width) := col in
  set_column_width (get_column_letter idx) width ws.

Definition write_category_cell (ws : worksheet) (line : nat * string) : worksheet :=
  let '(offset, category) := line in
  ws_cell offset CATEGORIES_COL_INDEX (PJson (JStr category)) ws.

(** [write_excel] up to [wb.save]: the worksheet handed to the library.
    [seed] is the hash seed of the process; it decides the order in which
    [sorted] receives the items of the set [categories]. *)
Definition fill_sheet (seed : N) (rows : list row) (categories : gset string)
    (sheet_name : string) : worksheet :=
  let ws := with_freeze_panes "A2" (with_title sheet_name new_sheet) in
  let ws := foldl write_header_cell ws (enumerate 1 HEADERS) in
  let ws := foldl write_data_row ws (enumerate 2 rows) in
  let ws :=
    match rows with
    | [] => ws
    | _ :: _ => add_table (ModsTable (length rows)) ws
    end in
  let widths : list Z := [30; 50; 60; 30; 15; 40; 20]%Z in
  let ws := foldl write_width ws (enumerate 1 widths) in
  let categories_col_letter := get_column_letter CATEGORIES_COL_INDEX in
  let ws := ws_cell 1 CATEGORIES_COL_INDEX (PJson (JStr "Categorias")) ws in
  let ws :=
    foldl write_category_cell ws
          (enumerate 2 (py_sorted str_lower (set_order seed categories))) in
  set_column_width categories_col_letter 25 ws.

(** [wb.save(path)] *)
Definition save (path : string) (wb : workbook) (w : world) : result unit * world :=
  match fs w !! path with
  | Some Directory => (Raise OSError, w)
  | _ => (Ok tt, {| fs := <[path := XlsxFile wb]> (fs w);
                    events := events w ++ [Saved path] |})
  end.

(** [write_excel(output_path, rows, categories, sheet_name="Mods")] *)
Definition write_excel (seed : N) (output_path : string) (rows : list row)
    (categories : gset string) (w : world) : result unit * world :=
  save output_path (Workbook (fill_sheet seed rows categories "Mods")) w.

(** [main] from [load_instance] to [build_rows]: the output path, the rows
    and the categories handed to [write_excel]. *)
Definition prepare (instance_path : string) (w : world)
  : result (string * (list row * gset string)) * world :=
  let '(loaded, w) := load_instance instance_path w in
  (instance ← loaded;
   launcher ← py_get_default instance "launcher" (JObj []);
   mods ← py_get_default launcher "mods" (JArr []);
   let instance_dir := dirname instance_path in
   let mods_dir := path_join instance_dir "mods" in
   version ← or_else (py_get launcher "version") (Ok (JStr "Unknown"));
   let output_path :=
     path_join instance_dir ("Mods " +:+ py_str version +:+ ".xlsx") in
   built ← build_rows mods mods_dir;
   Ok (output_path, built), w).

(** [main()], [parse_args()] having read the path from the command line,
    in a process started with hash seed [seed]. *)
Definition main (instance_json : string) (seed : N) (w : world) : outcome * world :=
  let instance_path := abspath instance_json in
  if negb (isfile instance_path w) then
    (Returned 1, print ("File not found: " +:+ instance_path) w)
  else
    match prepare instance_path w with
    | (Raise e, w) => (Uncaught e, w)
    | (Ok (output_path, (rows, categories)), w) =>
        match write_excel seed output_path rows categories w with
        | (Raise e, w) => (Uncaught e, w)
        | (Ok _, w) =>
            (Returned 0, print ("Excel report generated: " +:+ output_path) w)
        end
    end.

End Program.

(** ** The vocabulary of the statements *)

Section Vocabulary.
Context {platform : Platform}.


(** [obj.get(key)] when [obj] is a dictionary. *)
Definition field (obj : json) (key : string) : json :=
  match obj with
  | JObj members => default JNull (dict_get key members)
  | _ => JNull
  end.

#[global] Arguments field : simpl never.









(** The link of an enrichment project: built from its slug, else its id. *)
Definition link_of (project : json) : json :=
  let slug := py_or (field project "slug") (field project "id") in
  if truthy slug then JStr ("https://modrinth.com/mod/" +:+ py_str slug)
  else JNull.

(** The members of an object without those named [key]. *)
Definition without (key : string) (members : list (string * json))
  : list (string * json) :=
  filter (λ kv, kv.1 ≠ key) members.

(** The row of a mod entry that has no enrichment project. *)
Definition fallback_row (m : json) : row :=
  <["Mod Name" :=
      PJson (py_or (field m "name") (py_or (field m "file") (JStr "")))]>
  (<["Description" :=
       PJson (JStr "No Modrinth source available (untrusted source)")]>
  (<["Detail" := PJson (JStr "")]>
  (<["Category" := PJson (JStr "")]>
  (<["Links" := PJson (JStr "No Modrinth")]>
  (<["Links_url" := PJson JNull]>
  (<["File Name" := PJson (py_or (field m "file") (JStr ""))]>
  (<["Updated At" := PJson (JStr "")]> ∅))))))).



(** What [ws.cell(..., value=v)] leaves in a cell that held [current]. *)
Definition written (v : pyval) (current : cell) : cell :=
  match v with
  | PJson JNull => current
  | _ => set_value v current
  end.

(** The cell of a data row under [header], after the value was written and
    the hyperlink, the number format and the alignment were set. *)
Definition data_cell (r : row) (header : string) (current : cell) : cell :=
  let value := default (PJson (JStr "")) (r !! header) in
  let link := default (PJson JNull) (r !! "Links_url") in
  let c := written value current in
  let c :=
    if String.eqb header "Links" && pyval_truthy link
    then set_style "Hyperlink" (set_hyperlink link c) else c in
  let c :=
    if String.eqb header "Updated At" && is_datetime value
    then set_number_format "yyyy-mm-dd hh:mm:ss" c else c in
  if bool_decide (header ∈ wrap_columns)
  then set_alignment (Alignment true "top") c else c.

(** A loop over [enumerate(l, start=k)] that touches one cell per item,
    read off the store of cells: item number [i] goes to [pos i]. *)
Fixpoint fill {A} (pos : nat → nat * nat) (mk : A → cell → cell)
    (k : nat) (l : list A) (cs : gmap (nat * nat) cell) : gmap (nat * nat) cell :=
  match l with
  | [] => cs
  | x :: rest =>
      fill pos mk (S k) rest (<[pos k := mk x (default new_cell (cs !! pos k))]> cs)
  end.

(** The loop over the data rows, read off the store of cells. *)
Fixpoint fill_rows (k : nat) (rows : list row) (cs : gmap (nat * nat) cell)
  : gmap (nat * nat) cell :=
  match rows with
  | [] => cs
  | r :: rest =>
      fill_rows (S k) rest (fill (λ c, (k, c)) (data_cell r) 1 HEADERS cs)
  end.


(** The values found in the first seven columns of a worksheet row. *)
Definition sheet_row (ws : worksheet) (row_idx : nat) : list (option pyval) :=
  (λ col_idx, cell_value <$> cells ws !! (row_idx, col_idx)) <$> seq 1 (length HEADERS).

(** The values found in the category column below its header, read down
    to the first empty position among [n] rows. *)
Definition side_cell (ws : worksheet) (k : nat) : option pyval :=
  cell_value <$> cells ws !! (2 + k, CATEGORIES_COL_INDEX).

(** The order [sorted(..., key=key)] sorts by, and the case-insensitive
    order on tags. *)
Definition key_le (key : string → string) (a b : string) : Prop :=
  String.le (key a) (key b).

Definition lower_le : string → string → Prop := key_le str_lower.



(** The value of a cell of the workbook saved at [path]. *)
Definition saved_cell (w : world) (path : string) (r c : nat) : option pyval :=
  match fs w !! path with
  | Some (XlsxFile wb) => cell_value <$> cells (active wb) !! (r, c)
  | _ => None
  end.

(** No two distinct tags of the set are equal ignoring case. *)
Definition case_distinct (categories : gset string) : Prop :=
  NoDup (str_lower <$> elements categories).

(** The categories a run collects from the descriptor at [instance_path]
    (none when the run fails before [write_excel]). *)
Definition run_categories (instance_path : string) (w : world) : gset string :=
  match (prepare instance_path w).1 with
  | Ok (_, (_, categories)) => categories
  | Raise _ => ∅
  end.

(** The values [mod_display_name] tries, in order: the title of the
    project when there is a project, then the name and the file of the
    entry. *)
Definition name_candidates (m project : json) : list json :=
  (if truthy project then [field project "title"] else [])
  ++ [field m "name"; field m "file"].

(** The keys of a row dictionary. *)
Definition ROW_KEYS : gset string :=
  list_to_set (HEADERS ++ ["Links_url"]).

(** The tags of the category side list, as the sheet shows them. *)
Definition side_list (seed : N) (categories : gset string) : list string :=
  py_sorted str_lower (set_order seed categories).

(** Everything a worksheet holds beside its cells. *)
Definition beside_cells (ws : worksheet)
  : string * option string * gmap nat Z * gmap string Z * list table :=
  (title ws, freeze_panes ws, row_height ws, column_width ws, tables ws).

End Vocabulary.

(** ** A small platform to run the program on examples *)

Module Sample.

Definition digit (c : ascii) : option Z :=
  let n := nat_of_ascii c in
  if (48 <=? n)%nat && (n <=? 57)%nat then Some (Z.of_nat (n - 48)) else None.

Fixpoint number_from (acc : Z) (s : string) : option Z :=
  match s with
  | EmptyString => Some acc
  | String c rest => d ← digit c; number_from (acc * 10 + d) rest
  end.

(** A field of [len] digits starting at [pos]. *)
Definition digits_at (pos len : nat) (s : string) : option Z :=
  let text := substring pos len s in
  if (String.length text =? len)%nat then number_from 0 text else None.

Definition is_leap (y : Z) : bool :=
  ((y mod 4 =? 0) && negb (y mod 100 =? 0) || (y mod 400 =? 0))%Z.

Definition days_in_month (y m : Z) : Z :=
  if (m =? 2)%Z then (if is_leap y then 29 else 28)
  else if bool_decide (m ∈ [4; 6; 9; 11]%Z) then 30 else 31.

Definition days_before_year (y : Z) : Z :=
  let p := (y - 1)%Z in (p * 365 + p / 4 - p / 100 + p / 400)%Z.

Fixpoint days_before_month (y : Z) (m : nat) : Z :=
  match m with
  | O => 0
  | S k => (days_before_month y k + days_in_month y (Z.of_nat k + 1))%Z
  end.

Definition micro : Z := 1000000.

(** A parser for [YYYY-MM-DD?HH:MM:SS], optionally followed by [+HH:MM] or
    [-HH:MM]: part of what [datetime.fromisoformat] reads. *)
Definition parse_iso (s : string) : option datetime :=
  let n := String.length s in
  if negb ((n =? 19)%nat || (n =? 25)%nat) then None else
  if negb (String.eqb (substring 4 1 s) "-" && String.eqb (substring 7 1 s) "-"
           && String.eqb (substring 13 1 s) ":" && String.eqb (substring 16 1 s) ":")
  then None else
  y ← digits_at 0 4 s; m ← digits_at 5 2 s; d ← digits_at 8 2 s;
  hh ← digits_at 11 2 s; mm ← digits_at 14 2 s; ss ← digits_at 17 2 s;
  if negb ((1 <=? y) && (1 <=? m) && (m <=? 12) && (1 <=? d)
           && (d <=? days_in_month y m) && (hh <? 24) && (mm <? 60) && (ss <? 60))%Z
  then None else
  let days := (days_before_year y + days_before_month y (Z.to_nat (m - 1)) + (d - 1))%Z in
  let reading := ((days * 86400 + hh * 3600 + mm * 60 + ss) * micro)%Z in
  if (n =? 19)%nat then Some (mk_datetime reading None) else
  sign ← (if String.eqb (substring 19 1 s) "+" then Some 1%Z
          else if String.eqb (substring 19 1 s) "-" then Some (-1)%Z else None);
  if negb (String.eqb (substring 22 1 s) ":") then None else
  oh ← digits_at 20 2 s; om ← digits_at 23 2 s;
  if negb ((oh <? 24) && (om <? 60))%Z then None else
  Some (mk_datetime reading (Some (sign * (oh * 3600 + om * 60) * micro)%Z)).

(** [str.lower] on the letters [A] to [Z]. *)
Definition lower_char (c : ascii) : ascii :=
  let n := nat_of_ascii c in
  if (65 <=? n)%nat && (n <=? 90)%nat then ascii_of_nat (n + 32) else c.

Fixpoint lower (s : string) : string :=
  match s with
  | EmptyString => EmptyString
  | String c rest => String (lower_char c) (lower rest)
  end.

(** Two iteration orders, chosen by the parity of the hash seed. *)
Definition order_by_parity (seed : N) (s : gset string) : list string :=
  if N.even seed then elements s else reverse (elements s).

(** The directory part of a path: what precedes its last [/]. *)
Fixpoint dir_of (path : string) : string :=
  match path with
  | EmptyString => EmptyString
  | String c rest =>
      if bool_decide ("/"%char ∈ list_ascii_of_string rest)
      then String c (dir_of rest) else EmptyString
  end.

(** A platform three hours west of UTC, with current directory [/work],
    whose JSON parser knows the documents [docs]. *)
#[export] Instance platform (docs : list (string * json)) : Platform := {|
  fromisoformat := parse_iso;
  local_utcoffset := λ _, (-3 * 3600 * micro)%Z;
  str_lower := lower;
  repr_other := λ _, "?";
  set_order := order_by_parity;
  set_order_perm := λ seed s,
    match N.even seed as even
      return (if even then elements s else reverse (elements s)) ≡ₚ elements s
    with
    | true => Permutation_refl (elements s)
    | false => reverse_Permutation (elements s)
    end;
  abspath := λ p, if String.prefix "/" p then p else "/work/" +:+ p;
  dirname := dir_of;
  path_join := λ a b, a +:+ "/" +:+ b;
  json_loads := λ text, (λ found, found.2.2) <$> list_find (λ d, d.1 = text) docs
|}.

End Sample.

(** ** Example inputs *)

Module Examples.

Definition sodium : json :=
  JObj [("name", JStr "sodium-fabric");
        ("file", JStr "sodium.jar");
        ("modrinthProject",
         JObj [("title", JStr "Sodium");
               ("description", JStr "A rendering engine");
               ("body", JStr "Long text");
               ("categories", JArr [JStr "optimization"; JNull; JStr ""; JStr "Magic"]);
               ("slug", JStr "sodium");
               ("updated", JStr "2024-03-01T10:00:00Z")])].

Definition local_mod : json :=
  JObj [("name", JStr "Other"); ("file", JStr "other.jar")].

Definition spells : json :=
  JObj [("file", JStr "spells.jar");
        ("modrinthProject",
         JObj [("categories", JArr [JStr "magic"; JStr "optimization"]);
               ("id", JStr "AbCd1234");
               ("updated", JStr "not-a-date")])].

Definition empty_project_mod : json :=
  JObj [("name", JStr "Bare"); ("modrinthProject", JObj [])].

Definition mods : list json := [sodium; local_mod; spells].

(** A descriptor whose mods bring the tags "Magic" and "magic", and one
    whose tags differ by more than case. *)
Definition descriptor : json :=
  JObj [("launcher", JObj [("version", JStr "1.2"); ("mods", JArr mods)])].

Definition plain_descriptor : json :=
  JObj [("launcher", JObj [("version", JStr "1.2"); ("mods", JArr [local_mod; spells])])].

(** A descriptor without mods and without version. *)
Definition bare_descriptor : json := JObj [("launcher", JObj [("name", JStr "pack")])].

Definition documents : list (string * json) :=
  [("descriptor", descriptor);
   ("plain descriptor", plain_descriptor);
   ("bare descriptor", bare_descriptor)].

Definition disk : world :=
  {| fs := {[ "/work/instance.json" := TextFile "descriptor";
              "/work/plain/instance.json" := TextFile "plain descriptor";
              "/work/bare/instance.json" := TextFile "bare descriptor" ]};
     events := [] |}.

(** The platform of the examples. *)
Definition sample : Platform := Sample.platform documents.

End Examples.

(** More descriptors: one without launcher, one whose launcher is null;
    and two rows as [write_excel] receives them. *)
Module Cases.

Definition no_launcher : json := JObj [("name", JStr "pack")].

Definition null_launcher : json := JObj [("launcher", JNull)].

Definition documents : list (string * json) :=
  [("no launcher", no_launcher); ("null launcher", null_launcher)].

Definition disk : world :=
  {| fs := {[ "/work/none/instance.json" := TextFile "no launcher";
              "/work/null/instance.json" := TextFile "null launcher" ]};
     events := [] |}.

Definition cases : Platform := Sample.platform documents.



End Cases.

(** ** Strings: [endswith] and the slice [s[:-1]] *)

Section StringFacts.









End StringFacts.

(** ** Timestamps *)

Section Timestamps.
Context {platform : Platform}.


Lemma iso_to_datetime_falsy (v : json) :
  truthy v = false → iso_to_datetime v = Ok None.
Proof. intros Hv. unfold iso_to_datetime. by rewrite Hv. Qed.





Lemma updated_value_of_iso (raw : json) (parsed : option datetime) :
  iso_to_datetime raw = Ok parsed →
  updated_value raw
  = Ok (match parsed with
        | Some d => PDatetime d
        | None => PJson (py_or raw (JStr ""))
        end).
Proof. intros E. unfold updated_value. rewrite E. simpl. by destruct parsed. Qed.

Lemma updated_value_falsy (v : json) :
  truthy v = false → updated_value v = Ok (PJson (JStr "")).
Proof.
  intros Hv. rewrite (updated_value_of_iso v None) by by apply iso_to_datetime_falsy.
  unfold py_or. by rewrite Hv.
Qed.


End Timestamps.

(** ** The row builder *)

Section RowBuilder.
Context {platform : Platform}.

Lemma bind_Ok {A B} (f : A → result B) (x : A) : Ok x ≫= f = f x.
Proof. done. Qed.

Lemma py_get_field (members : list (string * json)) (key : string) :
  py_get (JObj members) key = Ok (field (JObj members) key).
Proof. done. Qed.

Lemma or_else_get (members : list (string * json)) (key : string) (b : result json) :
  or_else (py_get (JObj members) key) b
  = if truthy (field (JObj members) key) then Ok (field (JObj members) key) else b.
Proof. done. Qed.



Lemma add_categories_frame (items : list json) (c : gset string) :
  add_categories items c
  = match add_categories items ∅ with
    | Ok t => Ok (t ∪ c)
    | Raise e => Raise e
    end.
Proof.
  revert c. induction items as [|cat rest IH]; intros c; simpl.
  - f_equal. set_solver.
  - destruct (truthy cat); [|apply IH].
    destruct cat; try done.
    rewrite (IH ({[s]} ∪ c)), (IH ({[s]} ∪ ∅)).
    destruct (add_categories rest ∅); [|done].
    f_equal. set_solver.
Qed.



Lemma modrinth_link_eq (members : list (string * json)) :
  modrinth_link (JObj members) = Ok (link_of (JObj members)).
Proof.
  unfold modrinth_link, link_of, py_or. rewrite or_else_get, py_get_field.
  destruct (truthy (field (JObj members) "slug")) eqn:Hslug; simpl.
  - by rewrite Hslug.
  - by destruct (truthy (field (JObj members) "id")).
Qed.

Lemma or_else_chain (v : json) (w : json) :
  (if truthy v then Ok v else Ok w) = Ok (py_or v w).
Proof. unfold py_or. by destruct (truthy v). Qed.

Lemma display_name_fallback (members : list (string * json)) :
  or_else (py_get (JObj members) "name")
    (or_else (py_get (JObj members) "file") (Ok (JStr "")))
  = Ok (py_or (field (JObj members) "name")
          (py_or (field (JObj members) "file") (JStr ""))).
Proof.
  rewrite !or_else_get. unfold py_or.
  destruct (truthy (field (JObj members) "name")); [done|].
  by destruct (truthy (field (JObj members) "file")).
Qed.




(** The row of a mod entry without an enrichment project. *)
Lemma build_row_fallback (members : list (string * json)) (c : gset string) :
  truthy (field (JObj members) "modrinthProject") = false →
  build_row (JObj members) c = Ok (fallback_row (JObj members), c).
Proof.
  intros Hp. unfold build_row.
  rewrite (py_get_field members "modrinthProject"), bind_Ok.
  unfold enrich. rewrite Hp, bind_Ok. cbn [e_updated_raw].
  rewrite updated_value_falsy by done. rewrite bind_Ok.
  unfold mod_display_name. rewrite Hp, display_name_fallback, bind_Ok.
  rewrite or_else_get, or_else_chain, bind_Ok.
  reflexivity.
Qed.




(** The rows do not depend on the categories collected before. *)
Lemma enrich_frame (project : json) (c : gset string) :
  enrich project c
  = e ← enrich project ∅;
    Ok (mk_enrichment (e_description e) (e_detail e) (e_category e)
          (e_categories e ∪ c) (e_link_url e) (e_link_text e) (e_updated_raw e)).
Proof.
  unfold enrich. destruct (truthy project).
  - destruct (or_else (py_get project "description") (Ok (JStr "")))
      as [description|]; [|done].
    rewrite !bind_Ok.
    destruct (or_else (py_get project "body") (Ok (JStr "")))
      as [detail|]; [|done].
    rewrite !bind_Ok.
    destruct (or_else (py_get project "categories") (Ok (JArr [])))
      as [category_list|]; [|done].
    rewrite !bind_Ok.
    destruct (py_iter category_list) as [items|]; [|done]. rewrite !bind_Ok.
    destruct (py_join ";" _); [|done]. rewrite !bind_Ok.
    rewrite add_categories_frame.
    destruct (add_categories items ∅); [|done]. rewrite !bind_Ok.
    destruct (modrinth_link project); [|done]. rewrite !bind_Ok.
    by destruct (py_get project "updated").
  - rewrite bind_Ok. cbn [e_description e_detail e_category e_categories
                          e_link_url e_link_text e_updated_raw].
    do 2 f_equal. set_solver.
Qed.

Lemma build_row_frame (m : json) (c : gset string) :
  build_row m c = '(r, t) ← build_row m ∅; Ok (r, t ∪ c).
Proof.
  unfold build_row.
  destruct (py_get m "modrinthProject") as [project|]; [|done]. rewrite !bind_Ok.
  rewrite (enrich_frame project c).
  destruct (enrich project ∅) as [e|]; [|done]. rewrite !bind_Ok.
  cbn [e_description e_detail e_category e_categories
       e_link_url e_link_text e_updated_raw].
  destruct (updated_value (e_updated_raw e)); [|done]. rewrite !bind_Ok.
  destruct (mod_display_name m project); [|done]. rewrite !bind_Ok.
  by destruct (or_else (py_get m "file") (Ok (JStr ""))).
Qed.






End RowBuilder.

(** ** The store of cells *)

Section Cells.
Context {platform : Platform}.

Lemma fill_miss {A} (pos : nat → nat * nat) (mk : A → cell → cell)
    (l : list A) (k : nat) (cs : gmap (nat * nat) cell) (p : nat * nat) :
  (∀ i, i < length l → pos (k + i) ≠ p) →
  fill pos mk k l cs !! p = cs !! p.
Proof.
  revert k cs. induction l as [|x rest IH]; intros k cs Hp; simpl; [done|].
  rewrite IH.
  - apply lookup_insert_ne. specialize (Hp 0). rewrite Nat.add_0_r in Hp.
    apply Hp. simpl. lia.
  - intros i Hi. replace (S k + i) with (k + S i) by lia. apply Hp. simpl. lia.
Qed.

Lemma fill_hit {A} (pos : nat → nat * nat) (mk : A → cell → cell)
    (l : list A) (k : nat) (cs : gmap (nat * nat) cell) (i : nat) (x : A) :
  (∀ a b, pos a = pos b → a = b) →
  l !! i = Some x →
  fill pos mk k l cs !! pos (k + i)
  = Some (mk x (default new_cell (cs !! pos (k + i)))).
Proof.
  intros Hinj. revert k cs i.
  induction l as [|y rest IH]; intros k cs i Hi; [done|].
  destruct i as [|i]; simpl in *.
  - injection Hi as ->. rewrite Nat.add_0_r.
    rewrite fill_miss; [by rewrite lookup_insert_eq|].
    intros i _ E. apply Hinj in E. lia.
  - replace (k + S i) with (S k + i) by lia.
    rewrite (IH _ _ _ Hi). rewrite lookup_insert_ne; [done|].
    intros E. apply Hinj in E. lia.
Qed.

Lemma fill_rows_miss (rows : list row) (k : nat) (cs : gmap (nat * nat) cell)
    (r c : nat) :
  r < k ∨ k + length rows ≤ r ∨ c < 1 ∨ length HEADERS < c →
  fill_rows k rows cs !! (r, c) = cs !! (r, c).
Proof.
  change (length HEADERS) with 7.
  revert k cs. induction rows as [|row rest IH]; intros k cs Hp; [done|].
  cbn [fill_rows]. rewrite IH by (simpl in Hp; lia).
  apply fill_miss. change (length HEADERS) with 7.
  intros i Hi E. injection E as E1 E2. simpl in Hp. lia.
Qed.

Lemma fill_rows_hit (rows : list row) (k : nat) (cs : gmap (nat * nat) cell)
    (i j : nat) (row : row) (header : string) :
  rows !! i = Some row → HEADERS !! j = Some header →
  fill_rows k rows cs !! (k + i, 1 + j)
  = Some (data_cell row header (default new_cell (cs !! (k + i, 1 + j)))).
Proof.
  intros Hi Hj. revert k cs i Hi.
  induction rows as [|row0 rest IH]; intros k cs i Hi; [done|].
  destruct i as [|i]; simpl in Hi; cbn [fill_rows].
  - injection Hi as ->. rewrite Nat.add_0_r.
    rewrite fill_rows_miss by lia.
    apply (fill_hit (λ c, (k, c)) (data_cell row) HEADERS 1 cs j header);
      [by intros a b [= ->] | done].
  - replace (k + S i) with (S k + i) by lia.
    rewrite (IH _ _ _ Hi). do 2 f_equal.
    f_equal. apply fill_miss. intros a _ [= E _]. lia.
Qed.

(** The steps of [write_excel], seen from the store of cells. *)
Lemma cells_ws_cell (r c : nat) (v : pyval) (ws : worksheet) :
  cells (ws_cell r c v ws)
  = <[(r, c) := written v (default new_cell (cells ws !! (r, c)))]> (cells ws).
Proof. by destruct v as [[]|]. Qed.

Lemma cells_update_cell (r c : nat) (f : cell → cell) (ws : worksheet) :
  cells (update_cell r c f ws)
  = <[(r, c) := f (default new_cell (cells ws !! (r, c)))]> (cells ws).
Proof. done. Qed.

Lemma cells_set_row_height (r : nat) (h : Z) (ws : worksheet) :
  cells (set_row_height r h ws) = cells ws.
Proof. done. Qed.

Lemma cells_write_data_cell (row_idx : nat) (r : row) (ws : worksheet)
    (col_idx : nat) (header : string) :
  cells (write_data_cell row_idx r ws (col_idx, header))
  = <[(row_idx, col_idx) :=
        data_cell r header (default new_cell (cells ws !! (row_idx, col_idx)))]>
    (cells ws).
Proof.
  unfold write_data_cell, data_cell.
  repeat match goal with
         | |- context [if ?b then _ else _] => destruct b
         end;
    rewrite ?cells_update_cell, ?cells_ws_cell, ?lookup_insert_eq,
            ?insert_insert_eq; done.
Qed.

Lemma cells_write_data_cells (row_idx : nat) (r : row) (hs : list string)
    (k : nat) (ws : worksheet) :
  cells (foldl (write_data_cell row_idx r) ws (enumerate k hs))
  = fill (λ c, (row_idx, c)) (data_cell r) k hs (cells ws).
Proof.
  revert k ws. induction hs as [|h hs IH]; intros k ws; [done|].
  cbn [enumerate foldl fill]. by rewrite IH, cells_write_data_cell.
Qed.

Lemma cells_write_data_rows (rows : list row) (k : nat) (ws : worksheet) :
  cells (foldl write_data_row ws (enumerate k rows)) = fill_rows k rows (cells ws).
Proof.
  revert k ws. induction rows as [|r rows IH]; intros k ws; [done|].
  cbn [enumerate foldl fill_rows]. rewrite IH. unfold write_data_row.
  by rewrite cells_set_row_height, cells_write_data_cells.
Qed.

Lemma cells_write_header (hs : list string) (k : nat) (ws : worksheet) :
  cells (foldl write_header_cell ws (enumerate k hs))
  = fill (λ c, (1, c)) (λ h, written (PJson (JStr h))) k hs (cells ws).
Proof.
  revert k ws. induction hs as [|h hs IH]; intros k ws; simpl; [done|].
  by rewrite IH.
Qed.

Lemma cells_write_categories (tags : list string) (k : nat) (ws : worksheet) :
  cells (foldl write_category_cell ws (enumerate k tags))
  = fill (λ r, (r, CATEGORIES_COL_INDEX)) (λ t, written (PJson (JStr t)))
         k tags (cells ws).
Proof.
  revert k ws. induction tags as [|t tags IH]; intros k ws; simpl; [done|].
  by rewrite IH.
Qed.

Lemma cells_write_widths (ws : worksheet) (k : nat) (widths : list Z) :
  cells (foldl write_width ws (enumerate k widths)) = cells ws.
Proof.
  revert k ws. induction widths as [|w widths IH]; intros k ws; simpl; [done|].
  by rewrite IH.
Qed.

Lemma foldl_preserves {A B} (proj : worksheet → B)
    (step : worksheet → A → worksheet) (l : list A) (ws : worksheet) :
  (∀ ws x, proj (step ws x) = proj ws) →
  proj (foldl step ws l) = proj ws.
Proof.
  intros Hstep. revert ws. induction l as [|x l IH]; intros ws; simpl; [done|].
  by rewrite IH.
Qed.

(** The store of cells [write_excel] hands to the library. *)
Lemma cells_fill_sheet (seed : N) (rows : list row) (categories : gset string)
    (sheet_name : string) :
  let table_cells :=
    fill_rows 2 rows
      (fill (λ c, (1, c)) (λ h, written (PJson (JStr h))) 1 HEADERS ∅) in
  cells (fill_sheet seed rows categories sheet_name)
  = fill (λ r, (r, CATEGORIES_COL_INDEX)) (λ t, written (PJson (JStr t))) 2
      (py_sorted str_lower (set_order seed categories))
      (<[(1, CATEGORIES_COL_INDEX) :=
           written (PJson (JStr "Categorias"))
             (default new_cell (table_cells !! (1, CATEGORIES_COL_INDEX)))]>
       table_cells).
Proof.
  intros table_cells. unfold fill_sheet.
  change (cells (set_column_width ?a ?b ?w)) with (cells w).
  rewrite cells_write_categories, cells_ws_cell, cells_write_widths.
  subst table_cells.
  destruct rows as [|r0 rest];
    [|change (cells (add_table ?t ?w)) with (cells w)];
    rewrite cells_write_data_rows, cells_write_header; reflexivity.
Qed.

Section Lookups.
Variables (seed : N) (rows : list row) (categories : gset string)
          (sheet_name : string).

Let ws := fill_sheet seed rows categories sheet_name.
Let side := py_sorted str_lower (set_order seed categories).

Lemma sheet_header (j : nat) (header : string) :
  HEADERS !! j = Some header →
  cells ws !! (1, 1 + j) = Some (set_value (PJson (JStr header)) new_cell).
Proof.
  intros Hj. subst ws. rewrite cells_fill_sheet. cbv zeta.
  assert (j < 7) as Hlt by (apply lookup_lt_Some in Hj; simpl in Hj; lia).
  rewrite fill_miss by (intros i _ [= _ E]; unfold CATEGORIES_COL_INDEX in E; lia).
  rewrite lookup_insert_ne by (intros [= E]; unfold CATEGORIES_COL_INDEX in E; lia).
  rewrite fill_rows_miss by lia.
  rewrite (fill_hit (λ c, (1, c)) _ HEADERS 1 ∅ j header);
    [done | by intros a b [= ->] | done].
Qed.

Lemma sheet_data (i j : nat) (r : row) (header : string) :
  rows !! i = Some r → HEADERS !! j = Some header →
  cells ws !! (2 + i, 1 + j) = Some (data_cell r header new_cell).
Proof.
  intros Hi Hj. subst ws. rewrite cells_fill_sheet. cbv zeta.
  assert (j < 7) as Hlt by (apply lookup_lt_Some in Hj; simpl in Hj; lia).
  rewrite fill_miss by (intros k _ [= _ E]; unfold CATEGORIES_COL_INDEX in E; lia).
  rewrite lookup_insert_ne by (intros [= E]; lia).
  rewrite (fill_rows_hit rows 2 _ i j r header Hi Hj).
  rewrite fill_miss by (intros k _ [= E _]; lia).
  done.
Qed.

Lemma sheet_blank (r c : nat) :
  c ≠ CATEGORIES_COL_INDEX →
  r = 0 ∨ 2 + length rows ≤ r ∨ c = 0 ∨ length HEADERS < c →
  cells ws !! (r, c) = None.
Proof.
  intros Hc Hrc. subst ws. rewrite cells_fill_sheet. cbv zeta.
  change (length HEADERS) with 7 in Hrc.
  rewrite fill_miss by (intros k _ [= _ E]; lia).
  rewrite lookup_insert_ne by (intros [= _ E]; lia).
  rewrite fill_rows_miss by (change (length HEADERS) with 7; lia).
  rewrite fill_miss; [done|].
  change (length HEADERS) with 7. intros k Hk [= E1 E2]. lia.
Qed.

Lemma sheet_side_header :
  cells ws !! (1, CATEGORIES_COL_INDEX)
  = Some (set_value (PJson (JStr "Categorias")) new_cell).
Proof.
  subst ws. rewrite cells_fill_sheet. cbv zeta.
  rewrite fill_miss by (intros k _ [= E]; lia).
  rewrite lookup_insert_eq.
  rewrite fill_rows_miss by (unfold CATEGORIES_COL_INDEX; simpl; lia).
  rewrite fill_miss; [done|].
  intros k Hk [= E]. simpl in Hk. unfold CATEGORIES_COL_INDEX in E. lia.
Qed.

Lemma sheet_side (k : nat) :
  cells ws !! (2 + k, CATEGORIES_COL_INDEX)
  = (λ tag, set_value (PJson (JStr tag)) new_cell) <$> side !! k.
Proof.
  subst ws side. rewrite cells_fill_sheet. cbv zeta.
  set (below := <[(1, CATEGORIES_COL_INDEX) := _]> _).
  assert (below !! (2 + k, CATEGORIES_COL_INDEX) = None) as Hbelow.
  { subst below. rewrite lookup_insert_ne by (intros [= E]).
    rewrite fill_rows_miss by (unfold CATEGORIES_COL_INDEX; simpl; lia).
    rewrite fill_miss; [done|].
    intros i Hi E. apply (f_equal fst) in E. simpl in E. lia. }
  destruct (py_sorted str_lower (set_order seed categories) !! k) as [tag|] eqn:Hk.
  - rewrite (fill_hit (λ r, (r, CATEGORIES_COL_INDEX)) _ _ 2 below k tag);
      [by rewrite Hbelow | by intros a b [= ->] | done].
  - rewrite fill_miss; [done|].
    intros i Hi [= E]. apply lookup_ge_None in Hk. lia.
Qed.

End Lookups.

End Cells.

(** ** [sorted] *)

Section Sorting.
Variable key : string → string.

Lemma key_le_trans (a b c : string) : key_le key a b → key_le key b c → key_le key a c.
Proof. unfold key_le. apply (transitivity (R := String.le)). Qed.

Lemma insert_by_key_perm (x : string) (l : list string) :
  insert_by_key key x l ≡ₚ x :: l.
Proof.
  induction l as [|y rest IH]; simpl; [done|].
  destruct (String.leb (key x) (key y)); [done|].
  rewrite IH. apply Permutation_swap.
Qed.

Lemma py_sorted_perm (l : list string) : py_sorted key l ≡ₚ l.
Proof.
  induction l as [|x l IH]; simpl; [done|].
  unfold py_sorted in *. simpl. by rewrite insert_by_key_perm, IH.
Qed.

Lemma insert_by_key_sorted (x : string) (l : list string) :
  StronglySorted (key_le key) l →
  StronglySorted (key_le key) (insert_by_key key x l).
Proof.
  induction 1 as [|y rest Hrest IH Hy]; simpl.
  - repeat constructor.
  - destruct (String.leb (key x) (key y)) eqn:Hxy.
    + constructor; [by constructor|].
      assert (key_le key x y) as Hle by (unfold key_le, String.le; by rewrite Hxy).
      constructor; [done|].
      eapply Forall_impl; [exact Hy|]. intros z Hz. by eapply key_le_trans.
    + constructor; [done|].
      rewrite insert_by_key_perm. constructor; [|done].
      destruct (total String.le (key x) (key y)) as [Hle|Hle]; [|done].
      unfold String.le in Hle. by rewrite Hxy in Hle.
Qed.

Lemma py_sorted_sorted (l : list string) :
  StronglySorted (key_le key) (py_sorted key l).
Proof.
  induction l as [|x l IH]; [constructor|].
  apply insert_by_key_sorted, IH.
Qed.

(** When no two items share a key, the result depends on the items only,
    not on the order in which they come. *)
Lemma py_sorted_unique (l1 l2 : list string) :
  l1 ≡ₚ l2 →
  (∀ a b, a ∈ l1 → b ∈ l1 → key a = key b → a = b) →
  py_sorted key l1 = py_sorted key l2.
Proof.
  intros Hperm Hinj.
  apply (StronglySorted_unique_strong (key_le key)).
  - intros a b Ha Hb Hab Hba.
    rewrite py_sorted_perm in Ha. rewrite py_sorted_perm, <- Hperm in Hb.
    apply Hinj; [done..|].
    by apply (anti_symm String.le).
  - apply py_sorted_sorted.
  - apply py_sorted_sorted.
  - by rewrite !py_sorted_perm.
Qed.

End Sorting.

(** ** What the worksheet shows *)

Section Views.
Context {platform : Platform}.




Lemma sheet_row_blank (seed : N) (rows : list row) (categories : gset string)
    (sheet_name : string) (k : nat) :
  length rows ≤ k →
  sheet_row (fill_sheet seed rows categories sheet_name) (2 + k)
  = replicate (length HEADERS) None.
Proof.
  intros Hk. apply list_eq. intros j. unfold sheet_row.
  rewrite list_lookup_fmap.
  destruct (decide (j < length HEADERS)) as [Hj|Hj].
  - rewrite lookup_seq_lt, lookup_replicate_2 by done.
    cbn [fmap option_fmap option_map].
    rewrite sheet_blank; [done| |lia].
    change (length HEADERS) with 7 in Hj. unfold CATEGORIES_COL_INDEX. lia.
  - rewrite lookup_seq_ge by lia. symmetry. apply lookup_replicate_None. lia.
Qed.

Lemma sheet_row_header (seed : N) (rows : list row) (categories : gset string)
    (sheet_name : string) :
  sheet_row (fill_sheet seed rows categories sheet_name) 1
  = (λ header, Some (PJson (JStr header))) <$> HEADERS.
Proof.
  apply list_eq. intros j. unfold sheet_row.
  rewrite !list_lookup_fmap.
  destruct (HEADERS !! j) as [header|] eqn:Hj.
  - rewrite lookup_seq_lt by (by apply lookup_lt_Some in Hj).
    cbn [fmap option_fmap option_map].
    by rewrite (sheet_header _ _ _ _ j header Hj).
  - by rewrite lookup_seq_ge by (by apply lookup_ge_None in Hj).
Qed.

Lemma side_cell_sorted (seed : N) (rows : list row) (categories : gset string)
    (sheet_name : string) (k : nat) :
  side_cell (fill_sheet seed rows categories sheet_name) k
  = (λ tag, PJson (JStr tag)) <$> py_sorted str_lower (set_order seed categories) !! k.
Proof.
  unfold side_cell. rewrite sheet_side.
  by destruct (py_sorted str_lower (set_order seed categories) !! k).
Qed.

Lemma side_list_perm (seed : N) (categories : gset string) :
  py_sorted str_lower (set_order seed categories) ≡ₚ elements categories.
Proof. by rewrite py_sorted_perm, set_order_perm. Qed.

Lemma side_list_NoDup (seed : N) (categories : gset string) :
  NoDup (py_sorted str_lower (set_order seed categories)).
Proof. rewrite side_list_perm. apply NoDup_elements. Qed.

Lemma dict_get_without (key k : string) (members : list (string * json)) :
  dict_get k (without key members)
  = if decide (k = key) then None else dict_get k members.
Proof.
  unfold without. induction members as [|[k' v] rest IH]; simpl.
  - by destruct (decide (k = key)).
  - rewrite filter_cons. simpl.
    destruct (decide (k' ≠ key)) as [Hne|Heq]; simpl; rewrite IH.
    + destruct (decide (k = key)) as [->|_]; [|done].
      by rewrite (proj2 (String.eqb_neq k' key)).
    + apply dec_stable in Heq as ->.
      destruct (decide (k = key)) as [->|Hk]; [done|].
      rewrite (proj2 (String.eqb_neq key k)) by done.
      by destruct (dict_get k rest).
Qed.

Lemma fallback_row_without (members : list (string * json)) :
  fallback_row (JObj (without "modrinthProject" members))
  = fallback_row (JObj members).
Proof.
  unfold fallback_row, field. by rewrite !dict_get_without.
Qed.

Lemma fallback_row_fields (m : json) :
  fallback_row m !! "Description"
  = Some (PJson (JStr "No Modrinth source available (untrusted source)"))
  ∧ fallback_row m !! "Detail" = Some (PJson (JStr ""))
  ∧ fallback_row m !! "Category" = Some (PJson (JStr ""))
  ∧ fallback_row m !! "Links" = Some (PJson (JStr "No Modrinth"))
  ∧ fallback_row m !! "Links_url" = Some (PJson JNull)
  ∧ fallback_row m !! "Updated At" = Some (PJson (JStr "")).
Proof. done. Qed.

Lemma fallback_links_cell (m : json) :
  data_cell (fallback_row m) "Links" new_cell
  = set_value (PJson (JStr "No Modrinth")) new_cell.
Proof. done. Qed.





End Views.

(** ** The specification, claim by claim *)

Section Claims.
Context {platform : Platform}.




(** C4. A mod entry that lacks an enrichment project (the key is missing
    or null) gets a row with the fixed description, empty detail, empty
    category string, link label "No Modrinth" and no link URL; wherever that
    row stands among the rows written, its Links cell shows the label and
    carries no hyperlink. *)
Theorem C4_entry_without_enrichment (members : list (string * json))
    (c : gset string) :
  field (JObj members) "modrinthProject" = JNull →
  ∃ r,
    build_row (JObj members) c = Ok (r, c)
    ∧ r !! "Description"
      = Some (PJson (JStr "No Modrinth source available (untrusted source)"))
    ∧ r !! "Detail" = Some (PJson (JStr ""))
    ∧ r !! "Category" = Some (PJson (JStr ""))
    ∧ r !! "Links" = Some (PJson (JStr "No Modrinth"))
    ∧ r !! "Links_url" = Some (PJson JNull)
    ∧ ∀ seed rows categories i,
        rows !! i = Some r →
        ∃ links,
          cells (fill_sheet seed rows categories "Mods") !! (2 + i, 5) = Some links
          ∧ cell_value links = PJson (JStr "No Modrinth")
          ∧ cell_hyperlink links = None
          ∧ cell_style links = "Normal".
Proof.
  intros Hp. exists (fallback_row (JObj members)).
  split; [apply build_row_fallback; by rewrite Hp|].
  destruct (fallback_row_fields (JObj members)) as (? & ? & ? & ? & ? & _).
  repeat split; [done..|].
  intros seed rows categories i Hi.
  exists (set_value (PJson (JStr "No Modrinth")) new_cell).
  split; [|done].
  rewrite (sheet_data seed rows categories "Mods" i 4 _ "Links" Hi eq_refl).
  by rewrite fallback_links_cell.
Qed.


(** C6. The category column (column 11) has the header "Categorias" in its
    first row; below it stand the categories of the set, one per row from
    row 2 on, each exactly once and nothing else, in ascending order of
    their lower-cased form. *)
Theorem C6_category_side_list (seed : N) (rows : list row)
    (categories : gset string) :
  cell_value <$> cells (fill_sheet seed rows categories "Mods")
                   !! (1, CATEGORIES_COL_INDEX)
  = Some (PJson (JStr "Categorias"))
  ∧ ∃ side,
      side ≡ₚ elements categories
      ∧ NoDup side
      ∧ StronglySorted lower_le side
      ∧ ∀ k, side_cell (fill_sheet seed rows categories "Mods") k
             = (λ tag, PJson (JStr tag)) <$> side !! k.
Proof.
  split; [by rewrite sheet_side_header|].
  exists (py_sorted str_lower (set_order seed categories)).
  split; [apply side_list_perm|]. split; [apply side_list_NoDup|].
  split; [apply py_sorted_sorted|].
  intros k. apply side_cell_sorted.
Qed.

(** C7. With no rows the writer registers no table, writes the header row
    and no data row, and still writes the category column: its header
    "Categorias" and the sorted categories below it, which is nothing when
    the set is empty. *)
Theorem C7_empty_report (seed : N) (categories : gset string) :
  tables (fill_sheet seed [] categories "Mods") = []
  ∧ sheet_row (fill_sheet seed [] categories "Mods") 1
    = (λ header, Some (PJson (JStr header))) <$> HEADERS
  ∧ (∀ k, sheet_row (fill_sheet seed [] categories "Mods") (2 + k)
          = replicate (length HEADERS) None)
  ∧ cell_value <$> cells (fill_sheet seed [] categories "Mods")
                     !! (1, CATEGORIES_COL_INDEX)
    = Some (PJson (JStr "Categorias"))
  ∧ (∀ k, side_cell (fill_sheet seed [] categories "Mods") k
          = (λ tag, PJson (JStr tag))
              <$> py_sorted str_lower (set_order seed categories) !! k)
  ∧ (∀ k, side_cell (fill_sheet seed [] ∅ "Mods") k = None).
Proof.
  split; [|split; [|split; [|split; [|split]]]].
  - unfold fill_sheet.
    change (tables (set_column_width ?a ?b ?w)) with (tables w).
    rewrite (foldl_preserves tables write_category_cell); [done|].
    by intros ws [offset category].
  - apply sheet_row_header.
  - intros k. apply sheet_row_blank. simpl. lia.
  - by rewrite sheet_side_header.
  - intros k. apply side_cell_sorted.
  - intros k. rewrite side_cell_sorted.
    assert (set_order seed ∅ = []) as ->; [|done].
    apply Permutation_nil_r. rewrite set_order_perm. by rewrite elements_empty.
Qed.


(** C10. A mod entry whose [modrinthProject] is present but falsy (an empty
    object, null, false, zero, an empty string or list) is treated exactly
    like the same entry without the key: the row is the fallback row, with
    the fixed description, link label "No Modrinth", no link URL, empty
    detail and category string, and an empty string instead of a
    timestamp; the set of categories is left as it was. *)
Theorem C10_falsy_project_is_no_project (members : list (string * json))
    (v : json) (c : gset string) :
  dict_get "modrinthProject" members = Some v →
  truthy v = false →
  build_row (JObj members) c
  = build_row (JObj (without "modrinthProject" members)) c
  ∧ ∃ r,
      build_row (JObj members) c = Ok (r, c)
      ∧ r !! "Description"
        = Some (PJson (JStr "No Modrinth source available (untrusted source)"))
      ∧ r !! "Detail" = Some (PJson (JStr ""))
      ∧ r !! "Category" = Some (PJson (JStr ""))
      ∧ r !! "Links" = Some (PJson (JStr "No Modrinth"))
      ∧ r !! "Links_url" = Some (PJson JNull)
      ∧ r !! "Updated At" = Some (PJson (JStr "")).
Proof.
  intros Hv Hfalsy.
  assert (build_row (JObj members) c = Ok (fallback_row (JObj members), c)) as Hrow.
  { apply build_row_fallback. unfold field. by rewrite Hv. }
  split.
  - rewrite Hrow, build_row_fallback, fallback_row_without; [done|].
    unfold field. by rewrite dict_get_without.
  - exists (fallback_row (JObj members)). split; [done|].
    apply fallback_row_fields.
Qed.

End Claims.

(** ** Two runs *)

Section TwoRuns.
Context {platform : Platform}.

Lemma NoDup_fmap_inj (f : string → string) (l : list string) (a b : string) :
  NoDup (f <$> l) → a ∈ l → b ∈ l → f a = f b → a = b.
Proof.
  intros Hnodup Ha Hb Hab.
  apply list_elem_of_lookup in Ha as [i Hi], Hb as [j Hj].
  assert (i = j) as ->; [|congruence].
  eapply NoDup_lookup; [exact Hnodup|..].
  - by rewrite list_lookup_fmap, Hi.
  - by rewrite list_lookup_fmap, Hj, Hab.
Qed.

Lemma fill_sheet_seed (seed1 seed2 : N) (rows : list row)
    (categories : gset string) (sheet_name : string) :
  case_distinct categories →
  fill_sheet seed1 rows categories sheet_name
  = fill_sheet seed2 rows categories sheet_name.
Proof.
  intros Hdistinct. unfold fill_sheet.
  rewrite (py_sorted_unique str_lower (set_order seed1 categories)
             (set_order seed2 categories)); [done| |].
  - by rewrite !set_order_perm.
  - unfold case_distinct in Hdistinct. rewrite <- (set_order_perm seed1) in Hdistinct.
    intros a b Ha Hb Hab. by eapply NoDup_fmap_inj.
Qed.

(** C9.  Two runs on the same descriptor, under any two hash
    seeds, write the same cells outside the category column, and the
    category column of both holds the same tags in ascending order of
    their lower-cased form; when no two distinct category tags of the
    descriptor are equal ignoring case, the two runs end the same way with
    the same files, hence the same cell contents, the order of the side
    list included. *)
Theorem C9_runs_agree (instance_json : string) (seed1 seed2 : N) (w : world) :
  (case_distinct (run_categories (abspath instance_json) w) →
   main instance_json seed1 w = main instance_json seed2 w)
  ∧ (∀ rows categories r c,
       c ≠ CATEGORIES_COL_INDEX →
       cells (fill_sheet seed1 rows categories "Mods") !! (r, c)
       = cells (fill_sheet seed2 rows categories "Mods") !! (r, c))
  ∧ (∀ categories,
       py_sorted str_lower (set_order seed1 categories)
       ≡ₚ py_sorted str_lower (set_order seed2 categories)
       ∧ StronglySorted lower_le (py_sorted str_lower (set_order seed1 categories))
       ∧ StronglySorted lower_le (py_sorted str_lower (set_order seed2 categories))).
Proof.
  repeat apply conj.
  - unfold main, run_categories. intros Hdistinct.
    destruct (isfile (abspath instance_json) w); [|done]. simpl.
    destruct (prepare (abspath instance_json) w)
      as [[[output_path [rows categories]]|e] w1] eqn:Hprep; [|done].
    unfold write_excel.
    by rewrite (fill_sheet_seed seed1 seed2 rows categories "Mods").
  - intros rows categories r c Hc. rewrite !cells_fill_sheet. cbv zeta.
    rewrite !fill_miss by (intros i _ [= _ E]; done).
    by rewrite !lookup_insert_ne by (intros [= _ E]; done).
  - intros categories. split; [by rewrite !side_list_perm|].
    split; apply py_sorted_sorted.
Qed.

End TwoRuns.

(** ** The statements at the example inputs *)

(** ** The loop body, whatever the entry *)

Section Shape.
Context {platform : Platform}.

Lemma py_get_ok (obj : json) (key : string) (v : json) :
  py_get obj key = Ok v → ∃ members, obj = JObj members ∧ v = field obj key.
Proof.
  destruct obj; try discriminate. intros [= <-]. by eexists.
Qed.

Lemma link_of_cases (project : json) :
  (truthy (field project "slug") = true
   ∧ link_of project
     = JStr ("https://modrinth.com/mod/" +:+ py_str (field project "slug")))
  ∨ (truthy (field project "slug") = false
     ∧ truthy (field project "id") = true
     ∧ link_of project
       = JStr ("https://modrinth.com/mod/" +:+ py_str (field project "id")))
  ∨ (truthy (field project "slug") = false
     ∧ truthy (field project "id") = false
     ∧ link_of project = JNull).
Proof.
  unfold link_of, py_or.
  destruct (truthy (field project "slug")) eqn:Hslug.
  - left. by rewrite Hslug.
  - right. destruct (truthy (field project "id")) eqn:Hid; [left | right]; done.
Qed.

(** What [enrich] leaves in the local variables when it returns. *)
Lemma enrich_shape (project : json) (c : gset string) (e : enrichment) :
  enrich project c = Ok e →
  (truthy project = false
   ∧ e = mk_enrichment
           (JStr "No Modrinth source available (untrusted source)")
           (JStr "") "" c JNull "No Modrinth" JNull)
  ∨ (truthy project = true
     ∧ (∃ pm, project = JObj pm)
     ∧ e_description e = py_or (field project "description") (JStr "")
     ∧ e_detail e = py_or (field project "body") (JStr "")
     ∧ e_link_url e = link_of project
     ∧ e_link_text e = (if truthy (link_of project) then "Modrinth" else "")
     ∧ e_updated_raw e = field project "updated"
     ∧ c ⊆ e_categories e).
Proof.
  unfold enrich. destruct (truthy project) eqn:Ht.
  - intros He. right. split; [done|].
    destruct project as [| | | | | |pm]; try discriminate.
    split; [by eexists|].
    rewrite !or_else_get, !or_else_chain, !bind_Ok in He.
    destruct (py_iter _) as [items|]; [|done]. rewrite bind_Ok in He.
    destruct (py_join ";" _) as [category|]; [|done]. rewrite bind_Ok in He.
    rewrite add_categories_frame in He.
    destruct (add_categories items ∅) as [tags|]; [|done].
    rewrite bind_Ok, modrinth_link_eq, bind_Ok, py_get_field, bind_Ok in He.
    injection He as <-. simpl. repeat split; set_solver.
  - intros [= <-]. by left.
Qed.

(** What the loop body returns when it returns. *)
Lemma build_row_shape (m : json) (c c' : gset string) (r : row) :
  build_row m c = Ok (r, c') →
  ∃ members e stored name,
    m = JObj members
    ∧ enrich (field m "modrinthProject") c = Ok e
    ∧ updated_value (e_updated_raw e) = Ok stored
    ∧ mod_display_name m (field m "modrinthProject") = Ok name
    ∧ c' = e_categories e
    ∧ r = <["Mod Name" := PJson name]>
          (<["Description" := PJson (e_description e)]>
          (<["Detail" := PJson (e_detail e)]>
          (<["Category" := PJson (JStr (e_category e))]>
          (<["Links" := PJson (JStr (e_link_text e))]>
          (<["Links_url" := PJson (e_link_url e)]>
          (<["File Name" := PJson (py_or (field m "file") (JStr ""))]>
          (<["Updated At" := stored]> ∅))))))).
Proof.
  unfold build_row. intros Hrow.
  destruct (py_get m "modrinthProject") as [project|] eqn:Hproject; [|done].
  destruct (py_get_ok _ _ _ Hproject) as (members & -> & ->).
  rewrite bind_Ok in Hrow.
  destruct (enrich _ c) as [e|] eqn:He; [|done]. rewrite bind_Ok in Hrow.
  destruct (updated_value (e_updated_raw e)) as [stored|] eqn:Hstored; [|done].
  rewrite bind_Ok in Hrow.
  destruct (mod_display_name _ _) as [name|] eqn:Hname; [|done].
  rewrite bind_Ok, or_else_get, or_else_chain, bind_Ok in Hrow.
  injection Hrow as <- <-.
  by exists members, e, stored, name.
Qed.

End Shape.

(** ** Rows, whatever the entries *)

Section RowProperties.
Context {platform : Platform}.



(** X2. [mod_display_name] returns the first of its candidates that is not
    empty (the title of the project when there is a project, then the name
    of the entry, then its file), and the empty string when all of them
    are missing or empty: never [None]. *)
Theorem X2_display_name_first_non_empty (members : list (string * json))
    (project name : json) :
  mod_display_name (JObj members) project = Ok name →
  (Forall (λ v, truthy v = false) (name_candidates (JObj members) project)
   ∧ name = JStr "")
  ∨ (∃ before after,
       name_candidates (JObj members) project = before ++ name :: after
       ∧ Forall (λ v, truthy v = false) before
       ∧ truthy name = true).
Proof.
  unfold mod_display_name, name_candidates. intros Hname.
  rewrite display_name_fallback in Hname.
  assert (∀ title,
            (title = [] ∨ ∃ t, title = [t] ∧ truthy t = false) →
            (Forall (λ v, truthy v = false)
               (title ++ [field (JObj members) "name"; field (JObj members) "file"])
             ∧ py_or (field (JObj members) "name")
                 (py_or (field (JObj members) "file") (JStr "")) = JStr "")
            ∨ (∃ before after,
                 title ++ [field (JObj members) "name"; field (JObj members) "file"]
                 = before ++ py_or (field (JObj members) "name")
                               (py_or (field (JObj members) "file") (JStr ""))
                             :: after
                 ∧ Forall (λ v, truthy v = false) before
                 ∧ truthy (py_or (field (JObj members) "name")
                             (py_or (field (JObj members) "file") (JStr "")))
                   = true)) as Hrest.
  { intros title Htitle. unfold py_or.
    assert (Forall (λ v, truthy v = false) title) as Hfalsy.
    { destruct Htitle as [->|(t & -> & Ht)]; repeat constructor; done. }
    destruct (truthy (field (JObj members) "name")) eqn:Hn.
    - right. exists title, [field (JObj members) "file"]. by rewrite Hn.
    - destruct (truthy (field (JObj members) "file")) eqn:Hf.
      + right. exists (title ++ [field (JObj members) "name"]), [].
        rewrite <- app_assoc. split; [done|]. split; [|done].
        apply Forall_app. split; [done|]. by repeat constructor.
      + left. split; [|done].
        apply Forall_app. split; [done|]. by repeat constructor. }
  destruct (truthy project) eqn:Ht.
  - destruct project as [| | | | | |pm]; try discriminate.
    rewrite or_else_get in Hname.
    destruct (truthy (field (JObj pm) "title")) eqn:Htitle.
    + injection Hname as <-. right.
      exists [], [field (JObj members) "name"; field (JObj members) "file"].
      by repeat split.
    + injection Hname as <-. apply Hrest. right. by eexists.
  - injection Hname as <-. apply Hrest. by left.
Qed.

(** X3. In every row the loop body returns, the link label and the link
    URL go together: without a project the label is "No Modrinth" and
    there is no URL; with a project whose slug is not empty the URL is
    [https://modrinth.com/mod/] followed by the slug, otherwise by the id
    when that is not empty, with the label "Modrinth"; with neither, the
    label is empty and there is no URL. *)
Theorem X3_link_label_and_url (m : json) (c c' : gset string) (r : row) :
  build_row m c = Ok (r, c') →
  let project := field m "modrinthProject" in
  ∃ label url,
    r !! "Links" = Some (PJson (JStr label))
    ∧ r !! "Links_url" = Some (PJson url)
    ∧ ((truthy project = false ∧ label = "No Modrinth" ∧ url = JNull)
       ∨ (truthy project = true
          ∧ truthy (field project "slug") = true
          ∧ label = "Modrinth"
          ∧ url = JStr ("https://modrinth.com/mod/"
                        +:+ py_str (field project "slug")))
       ∨ (truthy project = true
          ∧ truthy (field project "slug") = false
          ∧ truthy (field project "id") = true
          ∧ label = "Modrinth"
          ∧ url = JStr ("https://modrinth.com/mod/"
                        +:+ py_str (field project "id")))
       ∨ (truthy project = true
          ∧ truthy (field project "slug") = false
          ∧ truthy (field project "id") = false
          ∧ label = "" ∧ url = JNull)).
Proof.
  intros Hrow project.
  destruct (build_row_shape _ _ _ _ Hrow)
    as (members & e & stored & name & -> & He & _ & _ & _ & ->).
  exists (e_link_text e), (e_link_url e).
  split; [by simplify_map_eq|]. split; [by simplify_map_eq|].
  destruct (enrich_shape _ _ _ He)
    as [[Ht ->]|(Ht & _ & _ & _ & -> & -> & _)]; [by left|].
  right. fold project.
  destruct (link_of_cases project)
    as [(Hs & ->)|[(Hs & Hi & ->)|(Hs & Hi & ->)]].
  - left. by repeat split.
  - right. left. by repeat split.
  - right. right. by repeat split.
Qed.

(** X4. Every row the loop body returns has exactly the eight keys of the
    dictionary literal (the seven headers and "Links_url"), with strings
    under "Category" and "Links": [write_excel] finds a value under every
    header and never falls back on the default of [row.get]. *)
Theorem X4_row_keys (m : json) (c c' : gset string) (r : row) :
  build_row m c = Ok (r, c') →
  dom r = ROW_KEYS
  ∧ Forall (λ header, is_Some (r !! header)) HEADERS
  ∧ (∃ category, r !! "Category" = Some (PJson (JStr category)))
  ∧ (∃ label, r !! "Links" = Some (PJson (JStr label))).
Proof.
  intros Hrow.
  destruct (build_row_shape _ _ _ _ Hrow)
    as (members & e & stored & name & -> & _ & _ & _ & _ & ->).
  split; [|split; [|split]].
  - rewrite !dom_insert_L, dom_empty_L. unfold ROW_KEYS. simpl. set_solver.
  - repeat constructor; by simplify_map_eq.
  - eexists. by simplify_map_eq.
  - eexists. by simplify_map_eq.
Qed.

Lemma build_rows_loop_ok (mods : list json) (rows0 : list row) (c0 : gset string) :
  is_ok (build_rows_loop mods rows0 c0)
  = forallb (λ m, is_ok (build_row m ∅)) mods.
Proof.
  revert rows0 c0. induction mods as [|m mods IH]; intros rows0 c0; [done|].
  cbn [build_rows_loop forallb]. rewrite build_row_frame.
  destruct (build_row m ∅) as [[r tags]|]; [|done].
  rewrite !bind_Ok. cbn [is_ok andb]. apply IH.
Qed.

Lemma build_rows_loop_first_failure (good rest : list json) (m : json) (e : exn)
    (rows0 : list row) (c0 : gset string) :
  forallb (λ m, is_ok (build_row m ∅)) good = true →
  build_row m ∅ = Raise e →
  build_rows_loop (good ++ m :: rest) rows0 c0 = Raise e.
Proof.
  intros Hgood Hbad. revert rows0 c0.
  induction good as [|g good IH]; intros rows0 c0.
  - cbn [app build_rows_loop]. by rewrite build_row_frame, Hbad.
  - cbn [forallb] in Hgood. apply andb_true_iff in Hgood as [Hg Hgood].
    cbn [app build_rows_loop]. rewrite build_row_frame.
    destruct (build_row g ∅) as [[r tags]|]; [|done].
    rewrite !bind_Ok. by apply IH.
Qed.

(** X5. [build_rows] returns rows exactly when the loop body succeeds on
    every entry taken alone: one entry that fails makes the whole call
    fail, with the exception of the first such entry, and no row is
    returned.  An entry that is not an object always fails, with
    [AttributeError]. *)
Theorem X5_one_bad_entry_fails_all (mods : list json) (mods_dir : string) :
  is_ok (build_rows (JArr mods) mods_dir)
  = forallb (λ m, is_ok (build_row m ∅)) mods
  ∧ (∀ good m rest e,
       mods = good ++ m :: rest →
       forallb (λ m, is_ok (build_row m ∅)) good = true →
       build_row m ∅ = Raise e →
       build_rows (JArr mods) mods_dir = Raise e)
  ∧ (∀ m c, (∀ members, m ≠ JObj members) →
       build_row m c = Raise AttributeError).
Proof.
  split; [|split].
  - unfold build_rows. cbn [py_iter]. rewrite bind_Ok.
    apply build_rows_loop_ok.
  - intros good m rest e -> Hgood Hbad.
    unfold build_rows. cbn [py_iter]. rewrite bind_Ok.
    by apply build_rows_loop_first_failure.
  - intros m c Hm. unfold build_row.
    destruct m; try done. by destruct (Hm members).
Qed.

End RowProperties.

(** ** The worksheet, cell by cell *)

Section SheetProperties.
Context {platform : Platform}.

Lemma sheet_row_zero (seed : N) (rows : list row) (categories : gset string)
    (sheet_name : string) (c : nat) :
  cells (fill_sheet seed rows categories sheet_name) !! (0, c) = None.
Proof.
  destruct (decide (c = CATEGORIES_COL_INDEX)) as [->|Hc].
  - rewrite cells_fill_sheet. cbv zeta.
    rewrite fill_miss by (intros k _ E; apply (f_equal fst) in E; simpl in E; lia).
    rewrite lookup_insert_ne by (intros E; apply (f_equal fst) in E; simpl in E; lia).
    rewrite fill_rows_miss by lia.
    rewrite fill_miss; [done|].
    intros k _ E. apply (f_equal fst) in E. simpl in E. lia.
  - apply sheet_blank; [done | by left].
Qed.

(** Every cell of the worksheet is a header cell, a data cell, the header
    of the category column or one of its tags. *)
Lemma sheet_cell_cases (seed : N) (rows : list row) (categories : gset string)
    (sheet_name : string) (r c : nat) (x : cell) :
  cells (fill_sheet seed rows categories sheet_name) !! (r, c) = Some x →
  (∃ j header,
     r = 1 ∧ c = 1 + j ∧ HEADERS !! j = Some header
     ∧ x = set_value (PJson (JStr header)) new_cell)
  ∨ (∃ i j data header,
       r = 2 + i ∧ c = 1 + j ∧ rows !! i = Some data
       ∧ HEADERS !! j = Some header
       ∧ x = data_cell data header new_cell)
  ∨ (r = 1 ∧ c = CATEGORIES_COL_INDEX
     ∧ x = set_value (PJson (JStr "Categorias")) new_cell)
  ∨ (∃ k tag,
       r = 2 + k ∧ c = CATEGORIES_COL_INDEX
       ∧ side_list seed categories !! k = Some tag
       ∧ x = set_value (PJson (JStr tag)) new_cell).
Proof.
  intros Hx.
  destruct (decide (r = 0)) as [->|Hr0]; [by rewrite sheet_row_zero in Hx|].
  destruct (decide (c = CATEGORIES_COL_INDEX)) as [->|Hc].
  - destruct (decide (r = 1)) as [->|Hr1].
    + rewrite sheet_side_header in Hx. injection Hx as <-.
      right. right. by left.
    + replace r with (2 + (r - 2)) in Hx |- * by lia.
      rewrite sheet_side in Hx.
      destruct (py_sorted str_lower (set_order seed categories) !! (r - 2))
        as [tag|] eqn:Hk; [|done].
      injection Hx as <-. right. right. right.
      exists (r - 2), tag. by repeat split.
  - destruct (decide (c = 0 ∨ length HEADERS < c ∨ 2 + length rows ≤ r))
      as [Hout|Hin].
    { rewrite sheet_blank in Hx; [done..|]. tauto. }
    change (length HEADERS) with 7 in Hin.
    assert (∃ header, HEADERS !! (c - 1) = Some header) as [header Hj].
    { apply lookup_lt_is_Some. simpl. lia. }
    replace c with (1 + (c - 1)) in Hx |- * by lia.
    destruct (decide (r = 1)) as [->|Hr1].
    + rewrite (sheet_header _ _ _ _ _ _ Hj) in Hx. injection Hx as <-.
      left. exists (c - 1), header. by repeat split.
    + assert (∃ data, rows !! (r - 2) = Some data) as [data Hi].
      { apply lookup_lt_is_Some. lia. }
      replace r with (2 + (r - 2)) in Hx |- * by lia.
      rewrite (sheet_data _ _ _ _ _ _ _ _ Hi Hj) in Hx. injection Hx as <-.
      right. left. exists (r - 2), (c - 1), data, header. by repeat split.
Qed.

Lemma written_attributes (v : pyval) :
  cell_hyperlink (written v new_cell) = None
  ∧ cell_style (written v new_cell) = "Normal"
  ∧ cell_number_format (written v new_cell) = "General"
  ∧ cell_alignment (written v new_cell) = None.
Proof. by destruct v as [[]|]. Qed.



Lemma data_cell_alignment (r : row) (header : string) :
  cell_alignment (data_cell r header new_cell)
  = if bool_decide (header ∈ wrap_columns)
    then Some (Alignment true "top") else None.
Proof.
  unfold data_cell.
  destruct (written_attributes (default (PJson (JStr "")) (r !! header)))
    as (_ & _ & _ & Halign).
  repeat match goal with
         | |- context [if ?b then _ else _] => destruct b
         end; simpl; by rewrite ?Halign.
Qed.

Lemma header_at (j : nat) (header : string) :
  HEADERS !! j = Some header →
  (j = 0 ∧ header = "Mod Name") ∨ (j = 1 ∧ header = "Description")
  ∨ (j = 2 ∧ header = "Detail") ∨ (j = 3 ∧ header = "Category")
  ∨ (j = 4 ∧ header = "Links") ∨ (j = 5 ∧ header = "File Name")
  ∨ (j = 6 ∧ header = "Updated At").
Proof.
  intros Hj. do 7 (destruct j as [|j]; [injection Hj as <-; tauto|]).
  discriminate.
Qed.



(** X8. A cell of the worksheet wraps its text and is aligned to the top
    exactly when it is a data cell (row 2 or below) of the columns
    Description, Detail or Category (columns 2 to 4); the header row and
    every other column keep the default alignment. *)
Theorem X8_wrapped_columns (seed : N) (rows : list row)
    (categories : gset string) (r c : nat) (x : cell) :
  cells (fill_sheet seed rows categories "Mods") !! (r, c) = Some x →
  cell_alignment x
  = if bool_decide (2 ≤ r ∧ 2 ≤ c ≤ 4)
    then Some (Alignment true "top") else None.
Proof.
  intros Hx.
  destruct (sheet_cell_cases _ _ _ _ _ _ _ Hx)
    as [(j & header & -> & _ & _ & ->)
       |[(i & j & data & header & -> & -> & _ & Hj & ->)
        |[(-> & -> & ->)|(k & tag & -> & -> & _ & ->)]]].
  - rewrite bool_decide_eq_false_2; [done | lia].
  - rewrite data_cell_alignment.
    destruct (header_at j header Hj)
      as [[-> ->]|[[-> ->]|[[-> ->]|[[-> ->]|[[-> ->]|[[-> ->]|[-> ->]]]]]]];
      first [ rewrite (bool_decide_eq_true_2 (_ ≤ _ ∧ _)) by lia; done
            | rewrite (bool_decide_eq_false_2 (_ ≤ _ ∧ _)) by lia; done ].
  - rewrite bool_decide_eq_false_2; [done | lia].
  - rewrite bool_decide_eq_false_2; [done | unfold CATEGORIES_COL_INDEX; lia].
Qed.

Lemma side_list_length (seed : N) (categories : gset string) :
  length (side_list seed categories) = size categories.
Proof.
  unfold side_list.
  by rewrite (Permutation_length (side_list_perm seed categories)).
Qed.

(** X9. The worksheet holds a cell exactly at the positions of the table
    (rows 1 to 1 + the number of rows, columns 1 to 7) and of the category
    column (column 11, rows 1 to 1 + the number of categories): nothing is
    written anywhere else. *)
Theorem X9_cells_written (seed : N) (rows : list row)
    (categories : gset string) (r c : nat) :
  is_Some (cells (fill_sheet seed rows categories "Mods") !! (r, c))
  ↔ (1 ≤ r ≤ 1 + length rows ∧ 1 ≤ c ≤ 7)
    ∨ (c = CATEGORIES_COL_INDEX ∧ 1 ≤ r ≤ 1 + size categories).
Proof.
  rewrite <- (side_list_length seed categories). split.
  - intros [x Hx].
    destruct (sheet_cell_cases _ _ _ _ _ _ _ Hx)
      as [(j & header & -> & -> & Hj & _)
         |[(i & j & data & header & -> & -> & Hi & Hj & _)
          |[(-> & -> & _)|(k & tag & -> & -> & Hk & _)]]].
    + apply lookup_lt_Some in Hj. simpl in Hj. left. lia.
    + apply lookup_lt_Some in Hj, Hi. simpl in Hj. left. lia.
    + right. lia.
    + apply lookup_lt_Some in Hk. right. lia.
  - intros [[Hr Hc]|[-> Hr]].
    + assert (∃ header, HEADERS !! (c - 1) = Some header) as [header Hj].
      { apply lookup_lt_is_Some. simpl. lia. }
      replace c with (1 + (c - 1)) by lia.
      destruct (decide (r = 1)) as [->|Hr1].
      * by rewrite (sheet_header _ _ _ _ _ _ Hj).
      * assert (∃ data, rows !! (r - 2) = Some data) as [data Hi].
        { apply lookup_lt_is_Some. lia. }
        replace r with (2 + (r - 2)) by lia.
        by rewrite (sheet_data _ _ _ _ _ _ _ _ Hi Hj).
    + destruct (decide (r = 1)) as [->|Hr1].
      * by rewrite sheet_side_header.
      * assert (∃ tag, side_list seed categories !! (r - 2) = Some tag)
          as [tag Hk].
        { apply lookup_lt_is_Some. lia. }
        replace r with (2 + (r - 2)) by lia.
        rewrite sheet_side. unfold side_list in Hk. by rewrite Hk.
Qed.

(** X13. The table and the category column do not touch each other: a
    cell outside column 11 is the same whatever the categories and the
    hash seed, and a cell of column 11 is the same whatever the rows. *)
Theorem X13_table_and_side_list_apart (seed seed' : N) (rows rows' : list row)
    (categories categories' : gset string) (r c : nat) :
  (c ≠ CATEGORIES_COL_INDEX →
   cells (fill_sheet seed rows categories "Mods") !! (r, c)
   = cells (fill_sheet seed' rows categories' "Mods") !! (r, c))
  ∧ cells (fill_sheet seed rows categories "Mods") !! (r, CATEGORIES_COL_INDEX)
    = cells (fill_sheet seed rows' categories "Mods") !! (r, CATEGORIES_COL_INDEX).
Proof.
  split.
  - intros Hc. rewrite !cells_fill_sheet. cbv zeta.
    rewrite !fill_miss by (intros i _ [= _ E]; done).
    by rewrite !lookup_insert_ne by (intros [= _ E]; done).
  - destruct (decide (r = 0)) as [->|Hr0]; [by rewrite !sheet_row_zero|].
    destruct (decide (r = 1)) as [->|Hr1]; [by rewrite !sheet_side_header|].
    replace r with (2 + (r - 2)) by lia. by rewrite !sheet_side.
Qed.

End SheetProperties.

(** ** The worksheet beside its cells *)

Section Layout.
Context {platform : Platform}.

Lemma write_data_cell_beside (row_idx : nat) (r : row) (ws : worksheet)
    (col : nat * string) :
  beside_cells (write_data_cell row_idx r ws col) = beside_cells ws.
Proof.
  destruct col as [col_idx header]. unfold write_data_cell.
  repeat match goal with
         | |- context [if ?b then _ else _] => destruct b
         end; done.
Qed.

Lemma write_header_cell_beside (ws : worksheet) (col : nat * string) :
  beside_cells (write_header_cell ws col) = beside_cells ws.
Proof. by destruct col. Qed.

Lemma write_category_cell_beside (ws : worksheet) (line : nat * string) :
  beside_cells (write_category_cell ws line) = beside_cells ws.
Proof. by destruct line. Qed.

Lemma beside_cells_eq (ws ws' : worksheet) :
  beside_cells ws = beside_cells ws' →
  title ws = title ws' ∧ freeze_panes ws = freeze_panes ws'
  ∧ row_height ws = row_height ws' ∧ column_width ws = column_width ws'
  ∧ tables ws = tables ws'.
Proof. unfold beside_cells. by intros [= -> -> -> -> ->]. Qed.

Lemma write_data_row_eq (ws : worksheet) (k : nat) (r : row) :
  write_data_row ws (k, r)
  = set_row_height k DATA_ROW_HEIGHT
      (foldl (write_data_cell k r) ws (enumerate 1 HEADERS)).
Proof. reflexivity. Qed.

Lemma set_row_height_beside (r : nat) (h : Z) (ws : worksheet) :
  title (set_row_height r h ws) = title ws
  ∧ freeze_panes (set_row_height r h ws) = freeze_panes ws
  ∧ column_width (set_row_height r h ws) = column_width ws
  ∧ tables (set_row_height r h ws) = tables ws
  ∧ row_height (set_row_height r h ws) = <[r := h]> (row_height ws).
Proof. done. Qed.

(** The loop over the data rows sets the height of its rows and nothing
    else beside the cells. *)
Lemma write_data_rows_beside (rows : list row) (k : nat) (ws : worksheet) :
  title (foldl write_data_row ws (enumerate k rows)) = title ws
  ∧ freeze_panes (foldl write_data_row ws (enumerate k rows)) = freeze_panes ws
  ∧ column_width (foldl write_data_row ws (enumerate k rows)) = column_width ws
  ∧ tables (foldl write_data_row ws (enumerate k rows)) = tables ws
  ∧ ∀ r, row_height (foldl write_data_row ws (enumerate k rows)) !! r
         = if bool_decide (k ≤ r < k + length rows)
           then Some DATA_ROW_HEIGHT else row_height ws !! r.
Proof.
  revert k ws. induction rows as [|row rows IH]; intros k ws.
  - repeat split. intros r. rewrite bool_decide_eq_false_2; [done|simpl; lia].
  - cbn [enumerate foldl].
    destruct (IH (S k) (write_data_row ws (k, row)))
      as (-> & -> & -> & -> & Hheight).
    destruct (beside_cells_eq _ _
                (foldl_preserves beside_cells (write_data_cell k row)
                   (enumerate 1 HEADERS) ws (write_data_cell_beside k row)))
      as (Ht & Hf & Hh & Hw & Htab).
    rewrite write_data_row_eq in Hheight |- *.
    destruct (set_row_height_beside k DATA_ROW_HEIGHT
                (foldl (write_data_cell k row) ws (enumerate 1 HEADERS)))
      as (-> & -> & -> & -> & Hset).
    split; [exact Ht|]. split; [exact Hf|]. split; [exact Hw|].
    split; [exact Htab|].
    intros r. rewrite Hheight, Hset, Hh.
    destruct (decide (r = k)) as [->|Hrk].
    + rewrite lookup_insert_eq.
      rewrite (bool_decide_eq_false_2 (S k ≤ k < _)) by lia.
      by rewrite bool_decide_eq_true_2 by (simpl; lia).
    + rewrite lookup_insert_ne by done.
      destruct (decide (S k ≤ r < S k + length rows)).
      * by rewrite !bool_decide_eq_true_2 by (simpl; lia).
      * by rewrite !bool_decide_eq_false_2 by (simpl; lia).
Qed.

Lemma table_step_beside (rows : list row) (ws : worksheet) :
  let ws' := match rows with
             | [] => ws
             | _ :: _ => add_table (ModsTable (length rows)) ws
             end in
  title ws' = title ws ∧ freeze_panes ws' = freeze_panes ws
  ∧ row_height ws' = row_height ws ∧ column_width ws' = column_width ws
  ∧ tables ws'
    = tables ws ++ match rows with
                   | [] => []
                   | _ :: _ => [ModsTable (length rows)]
                   end.
Proof. destruct rows; cbv zeta; repeat split; by rewrite ?app_nil_r. Qed.

(** [fill_sheet] beside the cells. *)
Lemma fill_sheet_beside (seed : N) (rows : list row) (categories : gset string)
    (sheet_name : string) :
  let ws := fill_sheet seed rows categories sheet_name in
  title ws = sheet_name
  ∧ freeze_panes ws = Some "A2"
  ∧ column_width ws
    = list_to_map [("A", 30); ("B", 50); ("C", 60); ("D", 30); ("E", 15);
                   ("F", 40); ("G", 20); ("K", 25)]%Z
  ∧ tables ws
    = match rows with
      | [] => []
      | _ :: _ => [ModsTable (length rows)]
      end
  ∧ ∀ r, row_height ws !! r
         = if bool_decide (2 ≤ r < 2 + length rows)
           then Some DATA_ROW_HEIGHT else None.
Proof.
  intros ws. subst ws. unfold fill_sheet.
  set (base := with_freeze_panes "A2" (with_title sheet_name new_sheet)).
  set (ws1 := foldl write_header_cell base (enumerate 1 HEADERS)).
  set (ws2 := foldl write_data_row ws1 (enumerate 2 rows)).
  set (ws3 := match rows with
              | [] => ws2
              | _ :: _ => add_table (ModsTable (length rows)) ws2
              end).
  set (ws4 := foldl write_width ws3 (enumerate 1 [30; 50; 60; 30; 15; 40; 20]%Z)).
  set (ws5 := ws_cell 1 CATEGORIES_COL_INDEX (PJson (JStr "Categorias")) ws4).
  set (ws6 := foldl write_category_cell ws5 _).
  destruct (beside_cells_eq _ _
              (foldl_preserves beside_cells write_header_cell
                 (enumerate 1 HEADERS) base write_header_cell_beside))
    as (Ht1 & Hf1 & Hh1 & Hw1 & Htab1). fold ws1 in Ht1, Hf1, Hh1, Hw1, Htab1.
  destruct (write_data_rows_beside rows 2 ws1) as (Ht2 & Hf2 & Hw2 & Htab2 & Hh2).
  fold ws2 in Ht2, Hf2, Hw2, Htab2, Hh2.
  destruct (table_step_beside rows ws2) as (Ht3 & Hf3 & Hh3 & Hw3 & Htab3).
  fold ws3 in Ht3, Hf3, Hh3, Hw3, Htab3.
  rewrite Htab2, Htab1 in Htab3. cbn [tables base with_freeze_panes app] in Htab3.
  assert (title ws4 = title ws3 ∧ freeze_panes ws4 = freeze_panes ws3
          ∧ row_height ws4 = row_height ws3 ∧ tables ws4 = tables ws3
          ∧ column_width ws4
            = list_to_map [("A", 30); ("B", 50); ("C", 60); ("D", 30);
                           ("E", 15); ("F", 40); ("G", 20)]%Z)
    as (Ht4 & Hf4 & Hh4 & Htab4 & Hw4).
  { subst ws4. cbn [enumerate foldl write_width].
    repeat split; try done.
    cbn [column_width set_column_width]. rewrite Hw3, Hw2, Hw1.
    vm_compute. reflexivity. }
  destruct (beside_cells_eq _ _
              (foldl_preserves beside_cells write_category_cell
                 (enumerate 2 (py_sorted str_lower (set_order seed categories)))
                 ws5 write_category_cell_beside))
    as (Ht6 & Hf6 & Hh6 & Hw6 & Htab6). fold ws6 in Ht6, Hf6, Hh6, Hw6, Htab6.
  cbn [title freeze_panes column_width tables row_height set_column_width].
  rewrite Ht6, Hf6, Hh6, Hw6, Htab6. subst ws5.
  cbn [title freeze_panes column_width tables row_height ws_cell with_cells].
  rewrite Ht4, Hf4, Hh4, Hw4, Htab4, Ht3, Hf3, Hh3, Htab3, Ht2, Hf2, Ht1, Hf1.
  repeat split; done.
Qed.

End Layout.

(** ** The worksheet beside its cells: statements *)

Section LayoutProperties.
Context {platform : Platform}.

(** X10. When there is at least one row, the worksheet has exactly one
    table, "ModsTable", in the style "TableStyleMedium9" with row stripes
    only, and its range goes from A1 to column G of the last data row. *)
Theorem X10_table_region (seed : N) (r : row) (rest : list row)
    (categories : gset string) :
  tables (fill_sheet seed (r :: rest) categories "Mods")
  = [ {| displayName := "ModsTable";
         ref := "A1:G" +:+ pretty (2 + length rest);
         tableStyleInfo :=
           Some {| style_name := "TableStyleMedium9";
                   showFirstColumn := false;
                   showLastColumn := false;
                   showRowStripes := true;
                   showColumnStripes := false |} |} ].
Proof.
  destruct (fill_sheet_beside seed (r :: rest) categories "Mods")
    as (_ & _ & _ & -> & _).
  reflexivity.
Qed.

(** X11. The rows of the worksheet with a fixed height are exactly the
    data rows (rows 2 to 1 + the number of rows), and their height is 15;
    the header row has none. *)
Theorem X11_row_heights (seed : N) (rows : list row) (categories : gset string)
    (r : nat) :
  row_height (fill_sheet seed rows categories "Mods") !! r
  = if bool_decide (2 ≤ r ≤ 1 + length rows) then Some 15%Z else None.
Proof.
  destruct (fill_sheet_beside seed rows categories "Mods")
    as (_ & _ & _ & _ & ->).
  destruct (decide (2 ≤ r ≤ 1 + length rows)).
  - by rewrite !bool_decide_eq_true_2 by lia.
  - by rewrite !bool_decide_eq_false_2 by lia.
Qed.

(** X12. Whatever the rows and the categories, the sheet carries the name
    it was given, its first row is frozen (pane "A2"), and the columns
    with a width are A to G, with the widths 30, 50, 60, 30, 15, 40, 20,
    and K, with the width 25. *)
Theorem X12_fixed_layout (seed : N) (rows : list row) (categories : gset string)
    (sheet_name : string) :
  title (fill_sheet seed rows categories sheet_name) = sheet_name
  ∧ freeze_panes (fill_sheet seed rows categories sheet_name) = Some "A2"
  ∧ column_width (fill_sheet seed rows categories sheet_name)
    = list_to_map [("A", 30); ("B", 50); ("C", 60); ("D", 30); ("E", 15);
                   ("F", 40); ("G", 20); ("K", 25)]%Z.
Proof.
  destruct (fill_sheet_beside seed rows categories sheet_name)
    as (Ht & Hf & Hw & _).
  by repeat split.
Qed.

End LayoutProperties.

(** ** A run *)

Section RunProperties.
Context {platform : Platform}.

Lemma prepare_ok (p : string) (w : world) (content : string)
    (top lm : list (string * json)) :
  fs w !! p = Some (TextFile content) →
  json_loads content = Some (JObj top) →
  default (JObj []) (dict_get "launcher" top) = JObj lm →
  prepare p w
  = (built ← build_rows (default (JArr []) (dict_get "mods" lm))
               (path_join (dirname p) "mods");
     Ok (path_join (dirname p)
           ("Mods " +:+ py_str (py_or (field (JObj lm) "version") (JStr "Unknown"))
            +:+ ".xlsx"), built),
     {| fs := fs w; events := events w ++ [Opened p] |}).
Proof.
  intros Hfile Hjson Hlauncher. unfold prepare, load_instance.
  rewrite Hfile, Hjson, bind_Ok. cbn [py_get_default].
  rewrite bind_Ok, Hlauncher. cbn [py_get_default].
  rewrite bind_Ok, or_else_get, or_else_chain, bind_Ok.
  reflexivity.
Qed.



(** X14. A descriptor that has no [launcher], or whose launcher has no
    [mods], is read as a descriptor without mods: the run builds no row
    and no category (so that the report has its header row only); without
    launcher the report is named "Mods Unknown.xlsx". *)
Theorem X14_missing_launcher_or_mods (p : string) (w : world) (content : string)
    (top : list (string * json)) :
  fs w !! p = Some (TextFile content) →
  json_loads content = Some (JObj top) →
  dict_get "launcher" top = None
  ∨ (∃ lm, dict_get "launcher" top = Some (JObj lm) ∧ dict_get "mods" lm = None) →
  ∃ out,
    prepare p w
    = (Ok (out, ([], ∅)), {| fs := fs w; events := events w ++ [Opened p] |})
    ∧ (dict_get "launcher" top = None →
       out = path_join (dirname p) "Mods Unknown.xlsx").
Proof.
  intros Hfile Hjson [Hnone|(lm & Hlm & Hmods)].
  - exists (path_join (dirname p) "Mods Unknown.xlsx"). split; [|done].
    rewrite (prepare_ok p w content top [] Hfile Hjson) by by rewrite Hnone.
    reflexivity.
  - exists (path_join (dirname p)
              ("Mods "
               +:+ py_str (py_or (field (JObj lm) "version") (JStr "Unknown"))
               +:+ ".xlsx")).
    split; [|intros Hnone; rewrite Hlm in Hnone; discriminate Hnone].
    rewrite (prepare_ok p w content top lm Hfile Hjson) by by rewrite Hlm.
    rewrite Hmods. reflexivity.
Qed.

(** X15. A key that is present with the wrong kind of value is not
    replaced by the default: a descriptor that is not an object, or whose
    [launcher] is present but not an object (null, say), ends the run with
    [AttributeError]; a [mods] that is null, a boolean or a number ends it
    with [TypeError].  In each case no file is written. *)
Theorem X15_present_but_wrong_kind (instance_json : string) (seed : N) (w : world)
    (content : string) (instance : json) :
  fs w !! abspath instance_json = Some (TextFile content) →
  json_loads content = Some instance →
  let after :=
    {| fs := fs w; events := events w ++ [Opened (abspath instance_json)] |} in
  ((∀ top, instance ≠ JObj top) →
   main instance_json seed w = (Uncaught AttributeError, after))
  ∧ (∀ top launcher,
       instance = JObj top → dict_get "launcher" top = Some launcher →
       (∀ lm, launcher ≠ JObj lm) →
       main instance_json seed w = (Uncaught AttributeError, after))
  ∧ (∀ top lm mods,
       instance = JObj top →
       default (JObj []) (dict_get "launcher" top) = JObj lm →
       dict_get "mods" lm = Some mods →
       (mods = JNull ∨ (∃ b, mods = JBool b) ∨ (∃ n, mods = JInt n)
        ∨ (∃ f, mods = JFloat f)) →
       main instance_json seed w = (Uncaught TypeError, after)).
Proof.
  intros Hfile Hjson after.
  assert (isfile (abspath instance_json) w = true) as Hisfile
    by (unfold isfile; by rewrite Hfile).
  split; [|split].
  - intros Hnot. unfold main. rewrite Hisfile. cbn [negb].
    unfold prepare, load_instance. rewrite Hfile, Hjson.
    destruct instance; try done. by destruct (Hnot members).
  - intros top launcher -> Hlauncher Hnot. unfold main. rewrite Hisfile.
    cbn [negb]. unfold prepare, load_instance. rewrite Hfile, Hjson.
    cbn [mbind result_bind py_get_default]. rewrite Hlauncher.
    cbn [default mbind result_bind].
    destruct launcher; try done. by destruct (Hnot members).
  - intros top lm mods -> Hlauncher Hmods Hkind. unfold main. rewrite Hisfile.
    cbn [negb].
    rewrite (prepare_ok _ w content top lm Hfile Hjson Hlauncher), Hmods.
    cbn [default].
    destruct Hkind as [->|[[b ->]|[[n ->]|[f ->]]]]; done.
Qed.



End RunProperties.

(** ** Data of the wrong kind *)

Section WrongKind.
Context {platform : Platform}.

Lemma py_join_not_a_string (sep : string) (items : list json) (bad : json) :
  bad ∈ items → (∀ tag, bad ≠ JStr tag) → py_join sep items = Raise TypeError.
Proof.
  intros Hbad Hkind. unfold py_join.
  assert (py_join_items items = Raise TypeError) as ->; [|done].
  induction items as [|item items IH]; [by apply elem_of_nil in Hbad|].
  apply elem_of_cons in Hbad as [<-|Hbad].
  - destruct bad; try done. by destruct (Hkind s).
  - destruct item; try done. cbn [py_join_items]. by rewrite IH.
Qed.

(** X18. An enrichment project of the wrong kind ends the run instead of
    being skipped.  A [modrinthProject] that is truthy but not an object
    (a number, a non-empty string or list) makes the loop body raise
    [AttributeError]; a [categories] list with a truthy item that is not a
    string makes it raise [TypeError]. *)
Theorem X18_ill_typed_project (members : list (string * json)) (project : json)
    (c : gset string) :
  field (JObj members) "modrinthProject" = project →
  truthy project = true →
  ((∀ pm, project ≠ JObj pm) →
   build_row (JObj members) c = Raise AttributeError)
  ∧ (∀ pm items bad,
       project = JObj pm →
       field project "categories" = JArr items →
       bad ∈ items → truthy bad = true → (∀ tag, bad ≠ JStr tag) →
       build_row (JObj members) c = Raise TypeError).
Proof.
  intros Hproject Ht. split.
  - intros Hkind. unfold build_row.
    rewrite (py_get_field members "modrinthProject"), bind_Ok, Hproject.
    unfold enrich. rewrite Ht.
    destruct project; try done. by destruct (Hkind members0).
  - intros pm items bad -> Hitems Hbad Htruthy Hkind. unfold build_row.
    rewrite (py_get_field members "modrinthProject"), bind_Ok, Hproject.
    unfold enrich. rewrite Ht.
    rewrite !or_else_get, !or_else_chain, !bind_Ok, Hitems.
    assert (py_or (JArr items) (JArr []) = JArr items) as ->.
    { unfold py_or. destruct items; [by apply elem_of_nil in Hbad|done]. }
    cbn [py_iter]. rewrite bind_Ok.
    rewrite (py_join_not_a_string ";" _ bad); [done| |done].
    apply list_elem_of_filter. by split.
Qed.

(** X19. [build_rows] iterates whatever [mods] is.  When [mods] is a text
    or an object instead of a list, its characters or keys are taken for
    mod entries: an empty one gives no row and no category, any other one
    raises [AttributeError] at its first character or key. *)
Theorem X19_mods_text_or_object (mods : json) (mods_dir : string) :
  (∃ s, mods = JStr s) ∨ (∃ members, mods = JObj members) →
  build_rows mods mods_dir
  = if truthy mods then Raise AttributeError else Ok ([], ∅).
Proof.
  intros [[s ->]|[members ->]]; unfold build_rows; cbn [py_iter];
    rewrite bind_Ok.
  - by destruct s.
  - by destruct members as [|[k v] members].
Qed.

End WrongKind.

(** ** Running twice *)

Section SecondRun.
Context {platform : Platform}.


End SecondRun.

Import Examples.




Lemma C4_entry_without_enrichment_witness :
  ∃ r, build_row (platform := sample) Examples.local_mod ∅ = Ok (r, ∅)
       ∧ r !! "Links" = Some (PJson (JStr "No Modrinth")).
Proof.
  destruct (C4_entry_without_enrichment (platform := sample)
              [("name", JStr "Other"); ("file", JStr "other.jar")] ∅)
    as (r & Hrow & _ & _ & _ & Hlinks & _); [reflexivity|].
  exists r. split; [exact Hrow | exact Hlinks].
Defined.



Lemma C9_runs_agree_witness :
  main (platform := sample) "plain/instance.json" 0%N Examples.disk
  = main (platform := sample) "plain/instance.json" 1%N Examples.disk.
Proof.
  destruct (C9_runs_agree (platform := sample)
              "plain/instance.json" 0%N 1%N Examples.disk) as (Hsame & _).
  apply Hsame. unfold case_distinct.
  apply (bool_decide_unpack _). vm_compute. exact I.
Defined.

Lemma C10_falsy_project_is_no_project_witness :
  build_row (platform := sample) Examples.empty_project_mod ∅
  = build_row (platform := sample) (JObj [("name", JStr "Bare")]) ∅.
Proof.
  destruct (C10_falsy_project_is_no_project (platform := sample)
              [("name", JStr "Bare"); ("modrinthProject", JObj [])] (JObj []) ∅)
    as (Hsame & _); [reflexivity | reflexivity |].
  exact Hsame.
Defined.

(** C9 does not hold for every descriptor: with the tags "Magic" and
    "magic" among the categories, a run under hash seed 0 and a run under
    hash seed 1 write the two tags in opposite orders in the category
    column. *)
Lemma C9_counterexample :
  saved_cell (main (platform := sample) "instance.json" 0%N Examples.disk).2
             "/work/Mods 1.2.xlsx" 2 CATEGORIES_COL_INDEX
  = Some (PJson (JStr "magic"))
  ∧ saved_cell (main (platform := sample) "instance.json" 1%N Examples.disk).2
               "/work/Mods 1.2.xlsx" 2 CATEGORIES_COL_INDEX
    = Some (PJson (JStr "Magic"))
  ∧ main (platform := sample) "instance.json" 0%N Examples.disk
    ≠ main (platform := sample) "instance.json" 1%N Examples.disk.
Proof.
  assert (saved_cell (main (platform := sample) "instance.json" 0%N Examples.disk).2
            "/work/Mods 1.2.xlsx" 2 CATEGORIES_COL_INDEX
          = Some (PJson (JStr "magic"))) as H0 by (vm_compute; reflexivity).
  assert (saved_cell (main (platform := sample) "instance.json" 1%N Examples.disk).2
            "/work/Mods 1.2.xlsx" 2 CATEGORIES_COL_INDEX
          = Some (PJson (JStr "Magic"))) as H1 by (vm_compute; reflexivity).
  split; [exact H0|]. split; [exact H1|].
  intros E. rewrite E, H1 in H0. discriminate H0.
Qed.

(** ** The properties at work *)


Lemma X2_display_name_first_non_empty_witness :
  ∃ before after,
    [JStr ""; JStr "other.jar"] = before ++ JStr "other.jar" :: after
    ∧ Forall (λ v, truthy v = false) before.
Proof.
  destruct (X2_display_name_first_non_empty
              [("name", JStr ""); ("file", JStr "other.jar")] JNull
              (JStr "other.jar") eq_refl)
    as [[_ Hempty]|(before & after & Hsplit & Hbefore & _)].
  - discriminate Hempty.
  - exists before, after. split; [exact Hsplit | exact Hbefore].
Defined.

Lemma X3_link_label_and_url_witness :
  ∃ label url,
    fallback_row Examples.local_mod !! "Links"
    = Some (PJson (JStr label))
    ∧ fallback_row Examples.local_mod !! "Links_url"
      = Some (PJson url).
Proof.
  destruct (X3_link_label_and_url (platform := sample)
              Examples.local_mod ∅ ∅ (fallback_row Examples.local_mod))
    as (label & url & Hlabel & Hurl & _); [vm_compute; reflexivity|].
  exists label, url. split; [exact Hlabel | exact Hurl].
Defined.

Lemma X4_row_keys_witness :
  dom (fallback_row Examples.local_mod) = ROW_KEYS.
Proof.
  destruct (X4_row_keys (platform := sample)
              Examples.local_mod ∅ ∅ (fallback_row Examples.local_mod))
    as (Hdom & _); [vm_compute; reflexivity|].
  exact Hdom.
Defined.

Lemma X5_one_bad_entry_fails_all_witness :
  build_rows (platform := sample) (JArr [Examples.local_mod; JNull]) "/work/mods"
  = Raise AttributeError.
Proof.
  destruct (X5_one_bad_entry_fails_all (platform := sample)
              [Examples.local_mod; JNull] "/work/mods") as (_ & Hfirst & _).
  apply (Hfirst [Examples.local_mod] JNull []); reflexivity.
Defined.



Lemma X8_wrapped_columns_witness :
  cell_alignment (written (PJson (JStr "Description")) new_cell) = None.
Proof.
  apply (X8_wrapped_columns (platform := sample) 0%N [] ∅ 1 2).
  vm_compute. reflexivity.
Defined.

Lemma X9_cells_written_witness :
  is_Some (cells (fill_sheet (platform := sample) 0%N [] ∅ "Mods") !! (1, 7)).
Proof.
  apply (X9_cells_written (platform := sample) 0%N [] ∅ 1 7).
  left. simpl. lia.
Defined.

Lemma X13_table_and_side_list_apart_witness :
  cells (fill_sheet (platform := sample) 0%N [] {["magic"]} "Mods") !! (1, 1)
  = cells (fill_sheet (platform := sample) 1%N [] ∅ "Mods") !! (1, 1).
Proof.
  destruct (X13_table_and_side_list_apart (platform := sample)
              0%N 1%N [] [] {["magic"]} ∅ 1 1) as [Hcell _].
  apply Hcell. unfold CATEGORIES_COL_INDEX. lia.
Defined.

Lemma X14_missing_launcher_or_mods_witness :
  ∃ out,
    prepare (platform := Cases.cases) "/work/none/instance.json" Cases.disk
    = (Ok (out, ([], ∅)),
       {| fs := fs Cases.disk;
          events := events Cases.disk ++ [Opened "/work/none/instance.json"] |}).
Proof.
  destruct (X14_missing_launcher_or_mods (platform := Cases.cases)
              "/work/none/instance.json" Cases.disk "no launcher"
              [("name", JStr "pack")]) as (out & Hprep & _).
  - vm_compute. reflexivity.
  - reflexivity.
  - left. reflexivity.
  - exists out. exact Hprep.
Defined.

Lemma X15_present_but_wrong_kind_witness :
  main (platform := Cases.cases) "null/instance.json" 0%N Cases.disk
  = (Uncaught AttributeError,
     {| fs := fs Cases.disk;
        events := events Cases.disk ++ [Opened "/work/null/instance.json"] |}).
Proof.
  destruct (X15_present_but_wrong_kind (platform := Cases.cases)
              "null/instance.json" 0%N Cases.disk "null launcher"
              Cases.null_launcher) as (_ & Hlauncher & _).
  - vm_compute. reflexivity.
  - reflexivity.
  - apply (Hlauncher [("launcher", JNull)] JNull); [reflexivity..|].
    intros lm Hlm. discriminate Hlm.
Defined.



Lemma X18_ill_typed_project_witness :
  build_row (platform := sample) (JObj [("modrinthProject", JInt 5)]) ∅
  = Raise AttributeError.
Proof.
  destruct (X18_ill_typed_project (platform := sample)
              [("modrinthProject", JInt 5)] (JInt 5) ∅ eq_refl eq_refl)
    as [Hkind _].
  apply Hkind. intros pm Hpm. discriminate Hpm.
Defined.

Lemma X19_mods_text_or_object_witness :
  build_rows (platform := sample) (JStr "ab") "/work/mods" = Raise AttributeError.
Proof.
  apply (X19_mods_text_or_object (platform := sample) (JStr "ab") "/work/mods").
  left. exists "ab". reflexivity.
Defined.

